(** * The card-battle bot: perception, strategy, emulator and main loop

    A shallow embedding of [vision/vision_system.py] and
    [core/game_states.py]: template loading ([_load_templates]), template
    matching over grayscale arrays ([_find_template]), game-phase
    classification ([get_current_game_state]), battlefield analysis
    ([analyze_battlefield]) and card lookup ([get_card_coordinates]); of
    [strategy/strategy_engine.py] ([decide_action]); of
    [emulator/emulator.py] (the ADB interface and [perform_action]); and
    of [core/bot_loop.py] (the loop of [run] and its handlers).

    Conventions.
    - Python integers of this program are pixel coordinates, array shapes
      and placeholder constants; none is ever negative, so they are [nat]
      ([//] is [Nat.div], [max]/[min] are [Nat.max]/[Nat.min]).
    - A NumPy array of rank two is a shape together with an indexing
      function ([ndarray]); pixel intensities are [Z].
    - Python floats (match scores and thresholds) are rationals: every
      finite float is one, and [>=] on finite floats is the rational order.
    - A call that may raise returns an [outcome]; the only raising
      operations of the vision module are the OpenCV calls.
    - The [VisionSystem] object is threaded explicitly: a method that
      assigns to [self] returns the updated object.
    - The emulator and the loop act on the world outside the program:
      their calls are functions of a state ([io]) that holds the world
      and the commands run so far, and they return a [result], which has
      the exceptions of [subprocess.run] besides OpenCV's.
    - Messages written to the log and the debug images are left out. *)

From Stdlib Require Import Arith ZArith QArith List String Ascii Lia Bool.
From Stdlib Require Import Sorted DecimalString Lqa.
Import ListNotations.

Local Open Scope string_scope.
Local Open Scope list_scope.
Local Open Scope nat_scope.

(** ** [core/game_states.py] *)

Inductive GameState : Type :=
  | INITIALIZING
  | ON_MENU
  | IN_BATTLE
  | POST_GAME
  | STOPPED.

(** ** Exceptions *)

Inductive exception : Type :=
  | cv2_error.

Inductive outcome (A : Type) : Type :=
  | Returned (a : A)
  | Raised (e : exception).

Arguments Returned {A} a.
Arguments Raised {A} e.

Definition bind {A B : Type} (m : outcome A) (k : A -> outcome B) : outcome B :=
  match m with
  | Returned a => k a
  | Raised e => Raised e
  end.

Notation "x <- m ;; k" := (bind m (fun x => k))
  (at level 61, m at next level, right associativity).

(** ** NumPy arrays of rank two *)

Record ndarray (A : Type) : Type := mk_ndarray {
  shape0 : nat;                 (* rows    : [a.shape[0]] *)
  shape1 : nat;                 (* columns : [a.shape[1]] *)
  item : nat -> nat -> A        (* [a[row, column]] *)
}.

Arguments mk_ndarray {A} shape0 shape1 item.
Arguments shape0 {A} n.
Arguments shape1 {A} n.
Arguments item {A} n row column.

(** [a.size] *)
Definition size {A : Type} (a : ndarray A) : nat := shape0 a * shape1 a.

(** [a[r0:r1, c0:c1]] for non-negative bounds: NumPy clips both ends of a
    slice to the axis length, and a slice whose start is not below its
    stop is empty. *)
Definition slice2 {A : Type} (a : ndarray A) (r0 r1 c0 c1 : nat) : ndarray A :=
  let r0' := Nat.min r0 (shape0 a) in
  let r1' := Nat.min r1 (shape0 a) in
  let c0' := Nat.min c0 (shape1 a) in
  let c1' := Nat.min c1 (shape1 a) in
  {| shape0 := r1' - r0';
     shape1 := c1' - c0';
     item := fun i j => item a (r0' + i) (c0' + j) |}.

(** An array literal, given by its rows. *)
Definition of_rows {A : Type} (default : A) (rows : list (list A)) : ndarray A :=
  {| shape0 := List.length rows;
     shape1 := List.length (List.hd [] rows);
     item := fun i j => List.nth j (List.nth i rows []) default |}.

(** A grayscale image, a BGR frame and a map of match scores. *)
Definition gray : Type := ndarray Z.
Definition frame : Type := ndarray (Z * Z * Z).
Definition scores : Type := ndarray Q.

(** A point is [(x, y)]: column first, as OpenCV reports locations. *)
Definition point : Type := (nat * nat)%type.

(** ** [cv2.minMaxLoc]

    OpenCV scans the array in memory order (row after row) and replaces
    the running extremum only on a strict improvement, so each location
    it reports is the first one, in that order, that attains the extremum.
    The linear index [k] of the scan stands for row [k / shape1] and
    column [k mod shape1]. An empty array has no extremum;
    [cv2.matchTemplate] never returns one, and the call fails on it
    here. *)

Definition Qltb (a b : Q) : bool := negb (Qle_bool b a).

Fixpoint scan_extrema (v : nat -> Q) (n : nat) : (Q * nat) * (Q * nat) :=
  match n with
  | 0 => ((v 0, 0), (v 0, 0))
  | S k =>
      let '((min_val, min_idx), (max_val, max_idx)) := scan_extrema v k in
      let x := v (S k) in
      (if Qltb x min_val then (x, S k) else (min_val, min_idx),
       if Qltb max_val x then (x, S k) else (max_val, max_idx))
  end.

Definition flat_item (a : scores) (k : nat) : Q :=
  item a (k / shape1 a) (k mod shape1 a).

Definition unravel (a : scores) (k : nat) : point :=
  (k mod shape1 a, k / shape1 a).

Definition minMaxLoc (a : scores) : outcome (Q * Q * point * point) :=
  if size a =? 0 then Raised cv2_error
  else
    let '((min_val, min_idx), (max_val, max_idx)) :=
      scan_extrema (flat_item a) (size a - 1) in
    Returned (min_val, max_val, unravel a min_idx, unravel a max_idx).

(** ** Declarative reading of "the best alignment" *)

Definition in_bounds {A : Type} (a : ndarray A) (p : point) : Prop :=
  snd p < shape0 a /\ fst p < shape1 a.

Definition score_at (a : scores) (p : point) : Q := item a (snd p) (fst p).

Definition row_major_before (p q : point) : Prop :=
  snd p < snd q \/ (snd p = snd q /\ fst p < fst q).

(** [p] attains the maximum score and no location scanned before it does. *)
Definition best_match (res : scores) (p : point) : Prop :=
  in_bounds res p /\
  forall q, in_bounds res q ->
    (score_at res q <= score_at res p)%Q /\
    (row_major_before q p -> (score_at res q < score_at res p)%Q).

(** ** Python strings: [str.replace] on one character and [str.title]

    Strings are ASCII here; a character outside the ASCII letters has no
    case, as for Python on ASCII text. *)

Definition is_upper (c : ascii) : bool :=
  (65 <=? nat_of_ascii c) && (nat_of_ascii c <=? 90).

Definition is_lower (c : ascii) : bool :=
  (97 <=? nat_of_ascii c) && (nat_of_ascii c <=? 122).

Definition is_cased (c : ascii) : bool := is_upper c || is_lower c.

Definition to_upper (c : ascii) : ascii :=
  if is_lower c then ascii_of_nat (nat_of_ascii c - 32) else c.

Definition to_lower (c : ascii) : ascii :=
  if is_upper c then ascii_of_nat (nat_of_ascii c + 32) else c.

(** [s.replace(old, new)] for single characters. *)
Fixpoint replace (old new : ascii) (s : string) : string :=
  match s with
  | EmptyString => EmptyString
  | String c rest =>
      String (if Ascii.eqb c old then new else c) (replace old new rest)
  end.

(** [s.title()]: a letter that follows a letter is lowered, any other
    letter is raised. *)
Fixpoint title_from (previous_is_cased : bool) (s : string) : string :=
  match s with
  | EmptyString => EmptyString
  | String c rest =>
      String (if previous_is_cased then to_lower c else to_upper c)
             (title_from (is_cased c) rest)
  end.

Definition title (s : string) : string := title_from false s.

(** ** Python dictionaries keyed by strings

    Insertion-ordered; [.items()] walks the list, [.get] looks a key up. *)

Definition dict (V : Type) : Type := list (string * V).

Fixpoint dict_get {V : Type} (d : dict V) (key : string) : option V :=
  match d with
  | [] => None
  | (k, v) :: rest => if String.eqb k key then Some v else dict_get rest key
  end.

(** ** The data of [VisionSystem] and of its results *)

(** A region of interest: [(left, top, right, bottom)]. *)
Definition roi : Type := (nat * nat * nat * nat)%type.

Definition roi_0 (r : roi) : nat := let '(a, _, _, _) := r in a.
Definition roi_1 (r : roi) : nat := let '(_, b, _, _) := r in b.
Definition roi_2 (r : roi) : nat := let '(_, _, c, _) := r in c.
Definition roi_3 (r : roi) : nat := let '(_, _, _, d) := r in d.

Record VisionSystem : Type := mk_VisionSystem {
  latest_screenshot : option frame;
  card_templates : dict gray;
  ui_templates : dict gray;
  enemy_unit_templates : dict gray;
  _battle_analysis_counter : nat;
  hand_roi : roi;
  battlefield_roi : roi;
  enemy_field_roi : roi;
  debug_visualizations : bool;
  debug_output_dir : string
}.

(** [self.latest_screenshot = image_np] *)
Definition set_latest_screenshot (self : VisionSystem) (image_np : frame)
    : VisionSystem :=
  {| latest_screenshot := Some image_np;
     card_templates := card_templates self;
     ui_templates := ui_templates self;
     enemy_unit_templates := enemy_unit_templates self;
     _battle_analysis_counter := _battle_analysis_counter self;
     hand_roi := hand_roi self;
     battlefield_roi := battlefield_roi self;
     enemy_field_roi := enemy_field_roi self;
     debug_visualizations := debug_visualizations self;
     debug_output_dir := debug_output_dir self |}.

(** [VisionSystem.__init__]. The three dictionaries are what
    [_load_templates] read from the template directories. *)
Definition __init__ (cards ui_elements enemy_units : dict gray) : VisionSystem :=
  let battlefield_roi := (0, 150, 720, 1000) in
  {| latest_screenshot := None;
     card_templates := cards;
     ui_templates := ui_elements;
     enemy_unit_templates := enemy_units;
     _battle_analysis_counter := 0;
     hand_roi := (50, 1050, 670, 1230);
     battlefield_roi := battlefield_roi;
     enemy_field_roi :=
       (roi_0 battlefield_roi, roi_1 battlefield_roi,
        roi_2 battlefield_roi,
        roi_1 battlefield_roi
          + (roi_3 battlefield_roi - roi_1 battlefield_roi) / 2 + 50);
     debug_visualizations := true;
     debug_output_dir := "debug_vision_output" |}.

(** An entry of ["cards_in_hand"]. *)
Record detected_card : Type := mk_detected_card {
  card_name : string;
  card_position : point;
  card_elixir_cost : nat;
  card_type : string
}.

(** An entry of ["opponent_units"]. *)
Record detected_unit : Type := mk_detected_unit {
  unit_name : string;
  unit_position : point;
  unit_health : nat;
  unit_type : string
}.

Record tower_health : Type := mk_tower_health {
  king : nat;
  left : nat;
  right : nat
}.

(** The dictionary [analyze_battlefield] returns. *)
Record game_info : Type := mk_game_info {
  player_units : list detected_unit;
  opponent_units : list detected_unit;
  cards_in_hand : list detected_card;
  current_elixir : Q;
  player_tower_health : tower_health;
  opponent_tower_health : tower_health;
  game_time_seconds : nat
}.

(** ** More of Python's strings, dictionaries and lists *)

(** [s.lower()] *)
Fixpoint lower (s : string) : string :=
  match s with
  | EmptyString => EmptyString
  | String c rest => String (to_lower c) (lower rest)
  end.

(** [s.endswith(suffix)] *)
Definition endswith (s suffix : string) : bool :=
  (String.length suffix <=? String.length s) &&
  String.eqb
    (substring (String.length s - String.length suffix)
               (String.length suffix) s)
    suffix.

(** [os.path.splitext(name)[0]] for a name without directory separator,
    as [os.listdir] returns them: the name up to its last dot, unless
    only dots come before that dot (or there is none), in which case the
    whole name. [seen] tells whether a character other than a dot came
    before; the result is [None] when there is nothing to split off. *)
Fixpoint splitext_root_from (seen : bool) (s : string) : option string :=
  match s with
  | EmptyString => None
  | String c rest =>
      let is_dot := Ascii.eqb c "." in
      match splitext_root_from (seen || negb is_dot) rest with
      | Some root => Some (String c root)
      | None => if is_dot && seen then Some EmptyString else None
      end
  end.

Definition splitext_root (name : string) : string :=
  match splitext_root_from false name with
  | Some root => root
  | None => name
  end.

(** [d[key] = value]: an existing key keeps its place. *)
Fixpoint dict_set {V : Type} (d : dict V) (key : string) (value : V) : dict V :=
  match d with
  | [] => [(key, value)]
  | (k, v) :: rest =>
      if String.eqb k key then (k, value) :: rest
      else (k, v) :: dict_set rest key value
  end.

(** [sorted(l, key=key)]: Python's sort is stable, elements with equal
    keys keep their order. Insertion from the right, each element going
    before the first one whose key is not smaller, is such a sort. *)
Fixpoint insert_by_key {A : Type} (key : A -> nat) (x : A) (l : list A)
    : list A :=
  match l with
  | [] => [x]
  | y :: rest =>
      if key x <=? key y then x :: y :: rest
      else y :: insert_by_key key x rest
  end.

Definition sorted {A : Type} (key : A -> nat) (l : list A) : list A :=
  fold_right (insert_by_key key) [] l.

(** ** Template loading of [VisionSystem]

    A directory is what the loaders see of it: [None] when
    [os.path.isdir] is false, otherwise the names [os.listdir] returns,
    in its order, each with what [cv2.imread(path, IMREAD_GRAYSCALE)]
    gives for it ([None] for a file it cannot decode). The directory can
    be listed, and a path in it exists when its name is listed, names
    being compared character by character as on a case-sensitive file
    system. *)

Definition directory : Type := option (list (string * option gray)).

Definition set_card_templates (self : VisionSystem) (templates : dict gray)
    : VisionSystem :=
  {| latest_screenshot := latest_screenshot self;
     card_templates := templates;
     ui_templates := ui_templates self;
     enemy_unit_templates := enemy_unit_templates self;
     _battle_analysis_counter := _battle_analysis_counter self;
     hand_roi := hand_roi self;
     battlefield_roi := battlefield_roi self;
     enemy_field_roi := enemy_field_roi self;
     debug_visualizations := debug_visualizations self;
     debug_output_dir := debug_output_dir self |}.

Definition set_ui_templates (self : VisionSystem) (templates : dict gray)
    : VisionSystem :=
  {| latest_screenshot := latest_screenshot self;
     card_templates := card_templates self;
     ui_templates := templates;
     enemy_unit_templates := enemy_unit_templates self;
     _battle_analysis_counter := _battle_analysis_counter self;
     hand_roi := hand_roi self;
     battlefield_roi := battlefield_roi self;
     enemy_field_roi := enemy_field_roi self;
     debug_visualizations := debug_visualizations self;
     debug_output_dir := debug_output_dir self |}.

Definition set_enemy_unit_templates (self : VisionSystem)
    (templates : dict gray) : VisionSystem :=
  {| latest_screenshot := latest_screenshot self;
     card_templates := card_templates self;
     ui_templates := ui_templates self;
     enemy_unit_templates := templates;
     _battle_analysis_counter := _battle_analysis_counter self;
     hand_roi := hand_roi self;
     battlefield_roi := battlefield_roi self;
     enemy_field_roi := enemy_field_roi self;
     debug_visualizations := debug_visualizations self;
     debug_output_dir := debug_output_dir self |}.

(** [filename.lower().endswith(('.png', '.jpg', '.jpeg'))] *)
Definition has_image_extension (filename : string) : bool :=
  endswith (lower filename) ".png"
  || endswith (lower filename) ".jpg"
  || endswith (lower filename) ".jpeg".

(** [os.path.splitext(filename)[0].replace('_', ' ').title()] *)
Definition template_name (filename : string) : string :=
  title (replace "_" " " (splitext_root filename)).

(** The loop over [os.listdir] that [_load_card_templates] and
    [_load_enemy_unit_templates] both run on their dictionary. *)
Fixpoint for_listed_files (templates : dict gray)
    (listing : list (string * option gray)) : dict gray :=
  match listing with
  | [] => templates
  | (filename, imread) :: rest =>
      if has_image_extension filename then
        let card_name := template_name filename in
        match imread with
        | Some template =>
            for_listed_files (dict_set templates card_name template) rest
        | None => for_listed_files templates rest
        end
      else for_listed_files templates rest
  end.

(** [VisionSystem._load_card_templates] *)
Definition _load_card_templates (self : VisionSystem) (cards_dir : directory)
    : VisionSystem :=
  match cards_dir with
  | None => self
  | Some listing =>
      set_card_templates self (for_listed_files (card_templates self) listing)
  end.

(** [VisionSystem._load_enemy_unit_templates] *)
Definition _load_enemy_unit_templates (self : VisionSystem)
    (enemy_units_dir : directory) : VisionSystem :=
  match enemy_units_dir with
  | None => self
  | Some listing =>
      set_enemy_unit_templates self
        (for_listed_files (enemy_unit_templates self) listing)
  end.

(** The UI elements [_load_ui_templates] expects, with their file names. *)
Definition expected_ui_elements : dict string :=
  [ ("Play Button", "play_button.png");
    ("Battle Indicator", "battle_indicator.png");
    ("OK Button", "ok_button.png");
    ("Home Button", "home_button.png");
    ("Settings Icon", "settings_icon.png") ].

(** The loop of [_load_ui_templates] over [expected_ui_elements.items()];
    [os.path.exists] holds of the names the directory lists, and of them
    only. *)
Fixpoint for_expected_ui_elements (templates : dict gray)
    (listing : list (string * option gray)) (items : list (string * string))
    : dict gray :=
  match items with
  | [] => templates
  | (ui_element_name, filename) :: rest =>
      match dict_get listing filename with
      | Some (Some template) =>
          for_expected_ui_elements
            (dict_set templates ui_element_name template) listing rest
      | Some None => for_expected_ui_elements templates listing rest
      | None => for_expected_ui_elements templates listing rest
      end
  end.

(** [VisionSystem._load_ui_templates] *)
Definition _load_ui_templates (self : VisionSystem)
    (ui_elements_dir : directory) : VisionSystem :=
  match ui_elements_dir with
  | None => self
  | Some listing =>
      set_ui_templates self
        (for_expected_ui_elements (ui_templates self) listing
           expected_ui_elements)
  end.

(** [VisionSystem._load_templates], given the three directories
    [templates/cards], [templates/ui_elements], [templates/enemy_units]. *)
Definition _load_templates (self : VisionSystem)
    (cards_dir ui_elements_dir enemy_units_dir : directory) : VisionSystem :=
  let self := _load_card_templates self cards_dir in
  let self := _load_ui_templates self ui_elements_dir in
  _load_enemy_unit_templates self enemy_units_dir.

(** [VisionSystem()]: the object the constructor leaves, given the three
    template directories. The constructor starts from empty dictionaries,
    runs [_load_templates] and then sets the attributes that
    [_load_templates] does not touch. Creating the directory of the debug
    images, which is not part of the object, is left out, as the debug
    images are. *)
Definition VisionSystem_new (cards_dir ui_elements_dir enemy_units_dir : directory)
    : VisionSystem :=
  _load_templates (__init__ [] [] []) cards_dir ui_elements_dir enemy_units_dir.

(** An entry of a listing that the loop of [_load_card_templates] stores
    under [name]: an image file name that normalises to [name], with an
    image [cv2.imread] could decode. *)
Definition stored_under (name : string) (entry : string * option gray)
    : Prop :=
  has_image_extension (fst entry) = true /\
  template_name (fst entry) = name /\
  snd entry <> None.

(** ** [strategy/strategy_engine.py] *)

Record StrategyEngine : Type := mk_StrategyEngine {
  general_defensive_position : point;
  general_offensive_position : point;
  left_lane_defensive : point;
  right_lane_defensive : point;
  middle_defensive : point;
  left_lane_offensive : point;
  right_lane_offensive : point;
  middle_offensive : point
}.

(** [StrategyEngine.__init__] *)
Definition StrategyEngine_init : StrategyEngine :=
  {| general_defensive_position := (360, 900);
     general_offensive_position := (360, 450);
     left_lane_defensive := (200, 900);
     right_lane_defensive := (520, 900);
     middle_defensive := (360, 800);
     left_lane_offensive := (200, 450);
     right_lane_offensive := (520, 450);
     middle_offensive := (360, 500) |}.

(** A value of [card_data]. *)
Record card_properties : Type := mk_card_properties {
  elixir_cost : nat;
  type_ : string;
  target : string
}.

Definition card_data : dict card_properties :=
  [ ("Knight", {| elixir_cost := 3; type_ := "tank"; target := "ground" |});
    ("Archers", {| elixir_cost := 3; type_ := "ranged"; target := "ground_air" |});
    ("Fireball", {| elixir_cost := 4; type_ := "spell"; target := "area" |});
    ("Mini Pekka", {| elixir_cost := 4; type_ := "damage"; target := "ground" |});
    ("Barbarians", {| elixir_cost := 5; type_ := "swarm"; target := "ground" |});
    ("Giant", {| elixir_cost := 5; type_ := "tank"; target := "buildings" |});
    ("Musketeer", {| elixir_cost := 4; type_ := "ranged"; target := "ground_air" |});
    ("Spear Goblins", {| elixir_cost := 2; type_ := "swarm"; target := "ground_air" |});
    ("Tombstone", {| elixir_cost := 3; type_ := "building"; target := "spawner" |});
    ("Valkyrie", {| elixir_cost := 4; type_ := "splash"; target := "ground" |});
    ("Wizard", {| elixir_cost := 5; type_ := "splash_ranged"; target := "ground_air" |}) ].

(** [StrategyEngine._assess_threat] *)
Definition _assess_threat (self : StrategyEngine) (info : game_info)
    : list detected_unit :=
  opponent_units info.

(** [StrategyEngine._get_card_properties] *)
Definition _get_card_properties (self : StrategyEngine) (card_name : string)
    : card_properties :=
  match dict_get card_data card_name with
  | Some properties => properties
  | None => {| elixir_cost := 99; type_ := "unknown"; target := "unknown" |}
  end.

(** The action dictionaries, by their ["action_type"]: a ["play_card"]
    action carries ["card_name"] and ["position"], a ["wait"] action may
    carry ["duration"]; any other type is kept as it is ([None] for a
    dictionary without the key). *)
Inductive action : Type :=
  | play_card (card_name : string) (position : point)
  | wait (duration : option Q)
  | do_nothing
  | unknown_action (action_type : option string).

(** [cost <= current_elixir], an integer against a float. *)
Definition int_le_float (n : nat) (x : Q) : bool :=
  Qle_bool (inject_Z (Z.of_nat n)) x.

(** [enemy_x < bound] and [enemy_x > bound], an integer against a float. *)
Definition int_lt_float (n : nat) (x : Q) : bool :=
  Qltb (inject_Z (Z.of_nat n)) x.

Definition int_gt_float (n : nat) (x : Q) : bool :=
  Qltb x (inject_Z (Z.of_nat n)).

(** [StrategyEngine.decide_action]. The test [if placement_position:]
    at its end is on a pair, which Python takes as true. *)
Definition decide_action (self : StrategyEngine) (info : game_info)
    : option action :=
  let cards := cards_in_hand info in
  let current_elixir := current_elixir info in
  let opponent_units := _assess_threat self info in
  match cards with
  | [] => None
  | _ :: _ =>
      let cost := fun card : detected_card =>
        elixir_cost (_get_card_properties self (card_name card)) in
      let playable_cards :=
        sorted cost
          (filter (fun card => int_le_float (cost card) current_elixir) cards) in
      match playable_cards with
      | [] => None
      | card_to_play_info :: _ =>
          let card_name := card_name card_to_play_info in
          let placement_position :=
            match opponent_units with
            | first_enemy_unit :: _ =>
                let '(enemy_x, enemy_y) := unit_position first_enemy_unit in
                if int_lt_float enemy_x (720 / 3) then
                  left_lane_defensive self
                else if int_gt_float enemy_x ((720 / 3) * 2) then
                  right_lane_defensive self
                else middle_defensive self
            | [] => middle_offensive self
            end in
          Some (play_card card_name placement_position)
      end
  end.

(** ** [emulator/emulator.py] and [core/bot_loop.py]: exceptions, state, data

    The calls of these two modules change the world outside the program
    and can raise more than OpenCV's error: what [subprocess.run] raises,
    the [ValueError] of [time.sleep] for a negative duration, or any
    other exception. *)

Inductive python_exception : Type :=
  | OpenCV (e : exception)
  | FileNotFoundError
  | CalledProcessError
  | TimeoutExpired
  | ValueError
  | OtherException.

Inductive result (A : Type) : Type :=
  | Ok (a : A)
  | Raise (e : python_exception).

Arguments Ok {A} a.
Arguments Raise {A} e.

(** A call that reads and changes a state [S] and returns or raises; the
    changes made before an exception stay. *)
Definition io (S A : Type) : Type := S -> S * result A.

Definition ret {S A : Type} (a : A) : io S A := fun s => (s, Ok a).

Definition raise {S A : Type} (e : python_exception) : io S A :=
  fun s => (s, Raise e).

Definition io_bind {S A B : Type} (m : io S A) (k : A -> io S B) : io S B :=
  fun s =>
    match m s with
    | (s', Ok a) => k a s'
    | (s', Raise e) => (s', Raise e)
    end.

Notation "x <~ m ;; k" := (io_bind m (fun x => k))
  (at level 61, m at next level, right associativity).

(** [try: m  except Exception as e: handler] *)
Definition try_except {S A : Type} (m : io S A)
    (handler : python_exception -> io S A) : io S A :=
  fun s =>
    match m s with
    | (s', Ok a) => (s', Ok a)
    | (s', Raise e) => handler e s'
    end.

(** A call of the [VisionSystem] that does not touch its object. *)
Definition of_outcome {S A : Type} (o : outcome A) : io S A :=
  fun s =>
    (s, match o with
        | Returned a => Ok a
        | Raised e => Raise (OpenCV e)
        end).

(** [str(n)] for a non-negative integer: its decimal digits. *)
Definition str (n : nat) : string := NilEmpty.string_of_uint (Nat.to_uint n).

(** [np.zeros((rows, columns, 3), dtype=np.uint8)] *)
Definition zeros (rows columns : nat) : frame :=
  {| shape0 := rows; shape1 := columns; item := fun _ _ => (0, 0, 0)%Z |}.

(** [a[:, :, ::-1]]: the three channels of every pixel in reverse order. *)
Definition reverse_channels (a : frame) : frame :=
  {| shape0 := shape0 a;
     shape1 := shape1 a;
     item := fun i j => let '(c0, c1, c2) := item a i j in (c2, c1, c0) |}.

(** Objects are shared by reference. The program creates one
    [VisionSystem], which [BotLoop.vision], [Emulator.vision_system] and
    [ADBEmulatorInterface.vision_system] all refer to, and one
    [ADBEmulatorInterface], which [BotLoop.emulator_interface] and
    [Emulator.emulator_interface] refer to. The two objects are kept in a
    [store]; a field that refers to one of them holds a reference. *)
Inductive vision_reference : Type := the_vision_system.

Inductive interface_reference : Type := the_emulator_interface.

Record ADBEmulatorInterface : Type := mk_ADBEmulatorInterface {
  adb_path : string;
  device_id : option string;
  adb_prefix : list string;
  vision_system : option vision_reference
}.

Record store : Type := mk_store {
  vision_object : VisionSystem;
  interface_object : ADBEmulatorInterface
}.

Record Emulator : Type := mk_Emulator {
  emulator_interface : interface_reference;
  emulator_vision_system : vision_reference
}.

Record BotLoop : Type := mk_BotLoop {
  current_state : GameState;
  running : bool;
  vision : vision_reference;
  bot_emulator_interface : interface_reference;
  emulator : Emulator;
  strategy : StrategyEngine
}.

(** [self.current_state = state] *)
Definition set_current_state (self : BotLoop) (state : GameState) : BotLoop :=
  {| current_state := state;
     running := running self;
     vision := vision self;
     bot_emulator_interface := bot_emulator_interface self;
     emulator := emulator self;
     strategy := strategy self |}.

(** [self.running = value] *)
Definition set_running (self : BotLoop) (value : bool) : BotLoop :=
  {| current_state := current_state self;
     running := value;
     vision := vision self;
     bot_emulator_interface := bot_emulator_interface self;
     emulator := emulator self;
     strategy := strategy self |}.

(** [ADBEmulatorInterface.set_vision_system] *)
Definition set_vision_system (self : ADBEmulatorInterface)
    (vision_system : vision_reference) : ADBEmulatorInterface :=
  {| adb_path := adb_path self;
     device_id := device_id self;
     adb_prefix := adb_prefix self;
     vision_system := Some vision_system |}.

(** [Emulator.__init__]: the interface has a [set_vision_system] method
    and is linked to the vision system. *)
Definition Emulator_init (emulator_interface : ADBEmulatorInterface)
    (vision_system : VisionSystem) : store * Emulator :=
  ({| vision_object := vision_system;
      interface_object :=
        set_vision_system emulator_interface the_vision_system |},
   {| emulator_interface := the_emulator_interface;
      emulator_vision_system := the_vision_system |}).

(** The world outside the program, of a type [world], and the commands
    handed to [subprocess.run] so far, the latest last. *)
Record environment (world : Type) : Type := mk_environment {
  outside : world;
  commands : list (list string)
}.

Arguments mk_environment {world} outside commands.
Arguments outside {world} e.
Arguments commands {world} e.

(** The state of the running bot. *)
Record machine (world : Type) : Type := mk_machine {
  env : environment world;
  objects : store
}.

Arguments mk_machine {world} env objects.
Arguments env {world} m.
Arguments objects {world} m.

(** The three arguments [simulate_click_and_drag] adds to [adb] for a
    swipe of 500 ms. *)
Definition swipe_command (start position : point) : list string :=
  [ "shell"; "input"; "swipe";
    str (fst start); str (snd start);
    str (fst position); str (snd position);
    str 500 ].

(** ** A reference implementation of the OpenCV operations

    Exact integer arithmetic in place of OpenCV's floating point; it is
    what the concrete runs further down are evaluated with. *)

Module RefCV.

(** [f 0 + ... + f (n - 1)] *)
Definition sum_upto (n : nat) (f : nat -> Z) : Z :=
  fold_right (fun k acc => (f k + acc)%Z) 0%Z (seq 0 n).

(** The sum of [f] over an [h] by [w] window, pixel after pixel. *)
Definition window_sum (h w : nat) (f : nat -> nat -> Z) : Z :=
  sum_upto (h * w) (fun k => f (k / w) (k mod w)).

(** Luma of a BGR pixel: [0.299 R + 0.587 G + 0.114 B], rounded. *)
Definition luma (px : Z * Z * Z) : Z :=
  let '(b, g, r) := px in
  ((299 * r + 587 * g + 114 * b + 500) / 1000)%Z.

Definition gray_image (image : frame) : gray :=
  {| shape0 := shape0 image;
     shape1 := shape1 image;
     item := fun i j => luma (item image i j) |}.

Definition cvtColor_BGR2GRAY (image : frame) : outcome gray :=
  if size image =? 0 then Raised cv2_error else Returned (gray_image image).

(** Border handling [BORDER_REFLECT_101] for the five taps around [i]:
    the index of tap [k] (the pixel at [i + k - 2]) on an axis of [n]
    pixels. *)
Definition reflect_101 (n i k : nat) : nat :=
  if n <=? 1 then 0
  else
    let period := 2 * (n - 1) in
    let m := (i + k + 2 * period - 2) mod period in
    if m <? n then m else period - m.

(** The five-tap kernel OpenCV uses for [ksize = 5], [sigma = 0]:
    [1 4 6 4 1] over 16. *)
Definition tap (k : nat) : Z :=
  match k with
  | 0 => 1%Z
  | 1 => 4%Z
  | 2 => 6%Z
  | 3 => 4%Z
  | 4 => 1%Z
  | _ => 0%Z
  end.

Definition blurred_item (image : gray) (i j : nat) : Z :=
  ((window_sum 5 5 (fun a b =>
      tap a * tap b *
      item image (reflect_101 (shape0 image) i a)
                 (reflect_101 (shape1 image) j b)) + 128) / 256)%Z.

Definition blurred_image (image : gray) : gray :=
  {| shape0 := shape0 image;
     shape1 := shape1 image;
     item := blurred_item image |}.

Definition GaussianBlur_5x5 (image : gray) : outcome gray :=
  if size image =? 0 then Raised cv2_error else Returned (blurred_image image).

(** [n] times the covariance of [f] and [g] over an [h] by [w] window of
    [n] pixels; with [g = f], [n] times the variance. *)
Definition covariance (h w : nat) (f g : nat -> nat -> Z) : Z :=
  (Z.of_nat (h * w) * window_sum h w (fun i j => f i j * g i j)
   - window_sum h w f * window_sum h w g)%Z.

(** [TM_CCOEFF_NORMED] at the alignment whose top-left corner is [(x, y)]:
    [num / sqrt (var_T * var_I)], kept to 24 fractional bits. The special
    cases are OpenCV's: a flat template scores 1 everywhere, a score that
    reaches the normaliser is 1 or -1, and a flat window scores 0. *)
Definition ccoeff_normed (image templ : gray) (x y : nat) : Q :=
  let h := shape0 templ in
  let w := shape1 templ in
  let I := fun i j => item image (y + i) (x + j) in
  let T := fun i j => item templ i j in
  let num := covariance h w T I in
  let var_T := covariance h w T T in
  let var_I := covariance h w I I in
  if (var_T =? 0)%Z then 1%Q
  else if (num * num <? var_T * var_I)%Z then
    let magnitude := Z.sqrt (num * num * 2 ^ 48 / (var_T * var_I)) in
    ((if (0 <=? num)%Z then magnitude else - magnitude)%Z # 16777216)%Q
  else if (64 * (num * num) <? 81 * (var_T * var_I))%Z then
    (if (0 <? num)%Z then 1 else -1)%Q
  else 0%Q.

(** One score per alignment of the template inside the image. *)
Definition score_map (image templ : gray) : scores :=
  {| shape0 := shape0 image - shape0 templ + 1;
     shape1 := shape1 image - shape1 templ + 1;
     item := fun y x => ccoeff_normed image templ x y |}.

(** OpenCV rejects an empty template and a template that exceeds the
    image in one dimension. One that exceeds it in both is exchanged with
    the image by OpenCV; it is rejected here as well, and the guard of
    [_find_template] keeps both cases away from the call. *)
Definition matchTemplate_CCOEFF_NORMED (image templ : gray) : outcome scores :=
  if (size templ =? 0)
     || (shape0 image <? shape0 templ) || (shape1 image <? shape1 templ)
  then Raised cv2_error
  else Returned (score_map image templ).

End RefCV.

(** ** Sample images and template stores *)

(** The frame whose three channels all equal the given intensities. *)
Definition monochrome (g : gray) : frame :=
  {| shape0 := shape0 g;
     shape1 := shape1 g;
     item := fun i j => (item g i j, item g i j, item g i j) |}.

(** A 3 by 4 image holding [corner_template] once, at column 1 of row 0. *)
Definition search_image : gray :=
  of_rows 0%Z [ [10; 20; 30; 44];
                [1; 200; 7; 9];
                [5; 5; 5; 5] ]%Z.

Definition corner_template : gray :=
  of_rows 0%Z [ [20; 30];
                [200; 7] ]%Z.

(** A one-row image holding [stripe_template] twice, at columns 0 and 2. *)
Definition stripe_image : gray := of_rows 0%Z [ [0; 255; 0; 255] ]%Z.

Definition stripe_template : gray := of_rows 0%Z [ [0; 255] ]%Z.

(** A frame of a single pixel. *)
Definition pixel_frame : frame := of_rows (0, 0, 0)%Z [ [(10, 20, 30)%Z] ].

(** A 6 by 6 frame with a bright patch in two opposite corners. *)
Definition two_patch_frame : frame :=
  monochrome (of_rows 0%Z [ [200; 40; 0; 0; 0; 0];
                            [40; 10; 0; 0; 0; 0];
                            [0; 0; 0; 0; 0; 0];
                            [0; 0; 0; 0; 90; 250];
                            [0; 0; 0; 0; 250; 30];
                            [0; 0; 0; 0; 30; 120] ]%Z).

(** The all-black frame of the reference resolution, 720 wide, 1280 high. *)
Definition black_frame : frame :=
  {| shape0 := 1280; shape1 := 720; item := fun _ _ => (0, 0, 0)%Z |}.

(** A frame 53 wide and 1053 high, black except for its last three rows
    and columns, which lie inside the hand region. *)
Definition hand_frame : frame :=
  {| shape0 := 1053;
     shape1 := 53;
     item := fun i j =>
       if (i <? 1050) || (j <? 50) then (0, 0, 0)%Z
       else
         let v := List.nth (j - 50)
                    (List.nth (i - 1050)
                       [ [200; 40; 0]; [40; 10; 0]; [0; 0; 90] ]%Z []) 0%Z in
         (v, v, v) |}.

(** UI templates, in the order [_load_ui_templates] stores them. *)
Definition sample_ui_templates : dict gray :=
  [ ("Play Button", of_rows 0%Z [ [70; 90]; [87; 109] ]%Z);
    ("Battle Indicator", of_rows 0%Z [ [46; 33]; [33; 23] ]%Z);
    ("OK Button", of_rows 0%Z [ [0; 255]; [255; 0] ]%Z);
    ("Home Button", of_rows 0%Z [ [10; 20]; [30; 40] ]%Z);
    ("Settings Icon", of_rows 0%Z [ [1; 2]; [3; 5] ]%Z) ].

Definition sample_card_templates : dict gray :=
  [ ("Fireball", of_rows 0%Z [ [0; 255]; [255; 0] ]%Z);
    ("Knight", of_rows 0%Z [ [29; 24]; [24; 23] ]%Z) ].

Definition sample_vision : VisionSystem :=
  __init__ sample_card_templates sample_ui_templates [].

(** The "Knight" entry expected for [hand_frame]: the last pixel of the
    frame, column 52 of row 1052. *)
Definition knight_in_hand : detected_card :=
  {| card_name := "Knight";
     card_position := (52, 1052);
     card_elixir_cost := 3;
     card_type := "unit" |}.

(** An enemy unit as [analyze_battlefield] reports one, in the left third
    of the screen. *)
Definition goblin_on_left : detected_unit :=
  {| unit_name := "Goblin";
     unit_position := (100, 300);
     unit_health := 100;
     unit_type := "unit" |}.

(** A card directory that loads as [sample_card_templates]: two image
    files, a text file and an image file that cannot be decoded. *)
Definition sample_cards_dir : directory :=
  Some [ ("fireball.png", Some (of_rows 0%Z [ [0; 255]; [255; 0] ]%Z));
         ("notes.txt", None);
         ("mini_pekka.png", None);
         ("knight.JPG", Some (of_rows 0%Z [ [29; 24]; [24; 23] ]%Z)) ].

(** A listing with two files for the knight, a decodable file that is no
    image by its name and an image file that cannot be decoded. *)
Definition two_knights_listing : list (string * option gray) :=
  [ ("knight.png", Some (of_rows 0%Z [ [1; 2] ]%Z));
    ("notes.txt", Some (of_rows 0%Z [ [3; 4] ]%Z));
    ("KNIGHT.jpeg", Some (of_rows 0%Z [ [5; 6] ]%Z));
    ("mini_pekka.png", None) ].

(** A UI directory without any of the files the classifier's rules need:
    the play button is there under another spelling. *)
Definition sample_ui_dir : directory :=
  Some [ ("Play_Button.PNG", Some (of_rows 0%Z [ [70; 90]; [87; 109] ]%Z));
         ("settings_icon.png", Some (of_rows 0%Z [ [1; 2]; [3; 5] ]%Z));
         ("ok_button.png", None) ].

(** A card directory whose only decodable file is not a PNG or JPEG. *)
Definition bitmap_cards_dir : directory :=
  Some [ ("knight.bmp", Some (of_rows 0%Z [ [29; 24]; [24; 23] ]%Z));
         ("fireball.png", None) ].

(** ** A scripted world for the runs of the bot loop

    The outcomes of the successive calls of [subprocess.run] are a
    script; when it is over, [adb] is not found. Sleeping changes
    nothing and the random generator gives 0.5. *)

Definition scripted_world : Type := list (string + python_exception).

Definition scripted_run (command : list string) (capture_output text : bool)
    (w : scripted_world) : scripted_world * (string + python_exception) :=
  match w with
  | completed :: rest => (rest, completed)
  | [] => ([], inr FileNotFoundError)
  end.

(** The output [pixel] decodes to [pixel_frame] and the output [hand] to
    [hand_frame]; nothing else decodes. *)
Definition scripted_decode (data : string) : option frame :=
  if String.eqb data "pixel" then Some pixel_frame
  else if String.eqb data "hand" then Some hand_frame
  else None.

Definition scripted_sleep (seconds : Q) (w : scripted_world) : scripted_world :=
  w.

Definition scripted_rand (w : scripted_world) : scripted_world * Q :=
  (w, 0.5%Q).

(** The objects of a bot whose card templates come from
    [sample_cards_dir] and which has no other template. *)
Definition sample_store : store :=
  fst (Emulator_init
         {| adb_path := "adb"; device_id := None;
            adb_prefix := ["adb"]; vision_system := None |}
         (VisionSystem_new sample_cards_dir None None)).

Definition sample_bot : BotLoop :=
  {| current_state := INITIALIZING;
     running := true;
     vision := the_vision_system;
     bot_emulator_interface := the_emulator_interface;
     emulator := {| emulator_interface := the_emulator_interface;
                    emulator_vision_system := the_vision_system |};
     strategy := StrategyEngine_init |}.

(** The bot's state in a world with script [w], no command run yet. *)
Definition sample_machine (w : scripted_world) : machine scripted_world :=
  {| env := {| outside := w; commands := [] |}; objects := sample_store |}.

(** ** The OpenCV operations the module calls

    They are the environment of the program: everything below is stated
    for any implementation of them. *)

Section Vision.

(** [cv2.cvtColor(image, cv2.COLOR_BGR2GRAY)] *)
Variable cvtColor_BGR2GRAY : frame -> outcome gray.

(** [cv2.GaussianBlur(image, (5, 5), 0)] *)
Variable GaussianBlur_5x5 : gray -> outcome gray.

(** [cv2.matchTemplate(image, templ, cv2.TM_CCOEFF_NORMED)] *)
Variable matchTemplate_CCOEFF_NORMED : gray -> gray -> outcome scores.

(** [VisionSystem._preprocess_image] *)
Definition _preprocess_image (image_np : frame) : outcome gray :=
  gray_image <- cvtColor_BGR2GRAY image_np ;;
  blurred_image <- GaussianBlur_5x5 gray_image ;;
  Returned blurred_image.

(** [VisionSystem._find_template]; [None] arguments are Python's [None]. *)
Definition _find_template (screen_image_gray template : option gray)
    (threshold : Q) : outcome (option point) :=
  match template, screen_image_gray with
  | Some template, Some screen_image_gray =>
      if (shape0 screen_image_gray <? shape0 template)
         || (shape1 screen_image_gray <? shape1 template)
      then Returned None
      else
        res <- matchTemplate_CCOEFF_NORMED screen_image_gray template ;;
        extrema <- minMaxLoc res ;;
        let '(min_val, max_val, min_loc, max_loc) := extrema in
        if Qle_bool threshold max_val then
          let template_width := shape1 template in
          let template_height := shape0 template in
          let center_x := fst max_loc + template_width / 2 in
          let center_y := snd max_loc + template_height / 2 in
          Returned (Some (center_x, center_y))
        else Returned None
  | _, _ => Returned None
  end.

(** The two loops of [analyze_battlefield] over [.items()]; the list being
    built is the accumulator, [append] adds at its end. *)
Fixpoint for_card_templates (roi_image_hand : gray)
    (hand_x_start hand_y_start : nat) (items : list (string * gray))
    (detected_cards_in_hand : list detected_card)
    : outcome (list detected_card) :=
  match items with
  | [] => Returned detected_cards_in_hand
  | (card_name, template) :: rest =>
      found_pos_in_roi <-
        _find_template (Some roi_image_hand) (Some template) 0.85 ;;
      match found_pos_in_roi with
      | Some found =>
          let full_screen_x := fst found + hand_x_start in
          let full_screen_y := snd found + hand_y_start in
          for_card_templates roi_image_hand hand_x_start hand_y_start rest
            (detected_cards_in_hand ++
             [ {| card_name := card_name;
                  card_position := (full_screen_x, full_screen_y);
                  card_elixir_cost := 3;
                  card_type := "unit" |} ])
      | None =>
          for_card_templates roi_image_hand hand_x_start hand_y_start rest
            detected_cards_in_hand
      end
  end.

Fixpoint for_enemy_unit_templates (roi_image_enemy_field : gray)
    (enemy_field_x_start enemy_field_y_start : nat)
    (items : list (string * gray))
    (detected_opponent_units : list detected_unit)
    : outcome (list detected_unit) :=
  match items with
  | [] => Returned detected_opponent_units
  | (unit_name, template) :: rest =>
      found_pos_in_roi <-
        _find_template (Some roi_image_enemy_field) (Some template) 0.85 ;;
      match found_pos_in_roi with
      | Some found =>
          let full_screen_x := fst found + enemy_field_x_start in
          let full_screen_y := snd found + enemy_field_y_start in
          for_enemy_unit_templates roi_image_enemy_field
            enemy_field_x_start enemy_field_y_start rest
            (detected_opponent_units ++
             [ {| unit_name := unit_name;
                  unit_position := (full_screen_x, full_screen_y);
                  unit_health := 100;
                  unit_type := "unit" |} ])
      | None =>
          for_enemy_unit_templates roi_image_enemy_field
            enemy_field_x_start enemy_field_y_start rest
            detected_opponent_units
      end
  end.

(** The crop [processed_image[max(0, y_start):min(shape[0], y_end),
    max(0, x_start):min(shape[1], x_end)]] of a region of interest. *)
Definition crop_roi (processed_image : gray) (r : roi) : gray :=
  let '(x_start, y_start, x_end, y_end) := r in
  slice2 processed_image
    (Nat.max 0 y_start) (Nat.min (shape0 processed_image) y_end)
    (Nat.max 0 x_start) (Nat.min (shape1 processed_image) x_end).

(** Card detection of [analyze_battlefield] (the hand region). *)
Definition detect_cards_in_hand (self : VisionSystem) (processed_image : gray)
    : outcome (list detected_card) :=
  let '(hand_x_start, hand_y_start, hand_x_end, hand_y_end) := hand_roi self in
  let roi_image_hand := crop_roi processed_image (hand_roi self) in
  if size roi_image_hand =? 0 then Returned []
  else
    for_card_templates roi_image_hand hand_x_start hand_y_start
      (card_templates self) [].

(** Enemy-unit detection of [analyze_battlefield] (the enemy field). *)
Definition detect_opponent_units (self : VisionSystem) (processed_image : gray)
    : outcome (list detected_unit) :=
  let '(enemy_field_x_start, enemy_field_y_start,
        enemy_field_x_end, enemy_field_y_end) := enemy_field_roi self in
  let roi_image_enemy_field := crop_roi processed_image (enemy_field_roi self) in
  if size roi_image_enemy_field =? 0 then Returned []
  else
    for_enemy_unit_templates roi_image_enemy_field
      enemy_field_x_start enemy_field_y_start
      (enemy_unit_templates self) [].

(** [VisionSystem.analyze_battlefield]. The debug overlays are drawn on
    copies of the frame and written to files; they do not reach the
    returned dictionary and are left out. *)
Definition analyze_battlefield (self : VisionSystem) (image_np : frame)
    : VisionSystem * outcome game_info :=
  let self := set_latest_screenshot self image_np in
  (self,
   processed_image <- _preprocess_image image_np ;;
   detected_cards_in_hand <- detect_cards_in_hand self processed_image ;;
   detected_opponent_units <- detect_opponent_units self processed_image ;;
   Returned
     {| player_units := [];
        opponent_units := detected_opponent_units;
        cards_in_hand := detected_cards_in_hand;
        current_elixir := 10.0;
        player_tower_health := {| king := 3000; left := 2000; right := 2000 |};
        opponent_tower_health := {| king := 3000; left := 2000; right := 2000 |};
        game_time_seconds := 60 |}).

(** One detection block of [get_current_game_state]: the template is
    fetched with [.get]; when present it is searched at threshold 0.7. A
    position returned by [_find_template] is a pair, which Python takes as
    true. *)
Definition ui_element_detected (self : VisionSystem) (processed_screen : gray)
    (ui_element_name : string) : outcome bool :=
  match dict_get (ui_templates self) ui_element_name with
  | Some ui_template =>
      ui_element_pos <-
        _find_template (Some processed_screen) (Some ui_template) 0.7 ;;
      match ui_element_pos with
      | Some _ => Returned true
      | None => Returned false
      end
  | None => Returned false
  end.

(** [VisionSystem.get_current_game_state] *)
Definition get_current_game_state (self : VisionSystem) (image_np : frame)
    : VisionSystem * outcome GameState :=
  let self := set_latest_screenshot self image_np in
  (self,
   processed_screen <- _preprocess_image image_np ;;
   battle_indicator_pos <-
     ui_element_detected self processed_screen "Battle Indicator" ;;
   if battle_indicator_pos then Returned IN_BATTLE else
   play_button_pos <-
     ui_element_detected self processed_screen "Play Button" ;;
   if play_button_pos then Returned ON_MENU else
   ok_button_pos <-
     ui_element_detected self processed_screen "OK Button" ;;
   if ok_button_pos then Returned POST_GAME else
   home_button_pos <-
     ui_element_detected self processed_screen "Home Button" ;;
   if home_button_pos then Returned ON_MENU else
   Returned IN_BATTLE).

(** [VisionSystem.get_card_coordinates] *)
Definition get_card_coordinates (self : VisionSystem) (card_name : string)
    : outcome (option point) :=
  match latest_screenshot self with
  | None => Returned None
  | Some latest =>
      let template_key := title (replace "_" " " card_name) in
      match dict_get (card_templates self) template_key with
      | None => Returned None
      | Some card_template =>
          screen_gray <- _preprocess_image latest ;;
          found_location <-
            _find_template (Some screen_gray) (Some card_template) 0.8 ;;
          match found_location with
          | Some found => Returned (Some found)
          | None => Returned None
          end
      end
  end.

(** ** The world outside the program

    The device behind [adb], the clock and the random generator make up
    a state [world] that the calls below read and change. *)

Variable world : Type.

(** [subprocess.run(full_command, capture_output=..., text=...,
    check=True, timeout=10)]: the standard output of the command, or the
    exception raised. *)
Variable subprocess_run :
  list string -> bool -> bool -> world -> world * (string + python_exception).

(** [np.array(Image.open(io.BytesIO(png_data)))] for a screenshot of three
    channels (RGB); [None] when opening or converting raises, or the
    array has no third axis to reverse. *)
Variable Image_open_array : string -> option frame.

(** [time.sleep(seconds)] for a duration that is not negative. *)
Variable time_sleep : Q -> world -> world.

(** [np.random.rand()] *)
Variable random_rand : world -> world * Q.

(** A call on the environment, made by the running bot. *)
Definition on_environment {A : Type} (m : io (environment world) A) : io (machine world) A :=
  fun s =>
    let '(env', r) := m (env s) in
    ({| env := env'; objects := objects s |}, r).

(** A call on the interface object of the store. *)
Definition on_interface {A : Type}
    (method : ADBEmulatorInterface -> io (environment world) A) : io (machine world) A :=
  fun s => on_environment (method (interface_object (objects s))) s.

(** A call on the vision object of the store, which it may change. *)
Definition on_vision {A : Type}
    (method : VisionSystem -> VisionSystem * outcome A) : io (machine world) A :=
  fun s =>
    let '(vision_object', r) := method (vision_object (objects s)) in
    of_outcome r
      {| env := env s;
         objects := {| vision_object := vision_object';
                       interface_object := interface_object (objects s) |} |}.

(** [time.sleep(seconds)] *)
Definition sleep (seconds : Q) : io (environment world) unit :=
  fun e =>
    if Qltb seconds 0 then (e, Raise ValueError)
    else ({| outside := time_sleep seconds (outside e);
             commands := commands e |}, Ok tt).

(** ** [emulator/emulator.py] *)

(** [ADBEmulatorInterface._run_adb_command]: the standard output when
    [capture_output] is set, otherwise [True], here [None]; every
    exception is raised again. *)
Definition _run_adb_command (self : ADBEmulatorInterface)
    (command : list string) (capture_output text : bool)
    : io (environment world) (option string) :=
  fun e =>
    let full_command := adb_prefix self ++ command in
    let '(outside', completed) :=
      subprocess_run full_command capture_output text (outside e) in
    let e' := {| outside := outside';
                 commands := commands e ++ [full_command] |} in
    match completed with
    | inl stdout => (e', Ok (if capture_output then Some stdout else None))
    | inr exc => (e', Raise exc)
    end.

(** [ADBEmulatorInterface._check_adb_connection]: what the command prints
    only decides which message is logged. *)
Definition _check_adb_connection (self : ADBEmulatorInterface)
    : io (environment world) unit :=
  try_except
    (output <~ _run_adb_command self ["devices"] true true ;; ret tt)
    (fun _ => ret tt).

(** [ADBEmulatorInterface.__init__]; an empty [device_id] counts as none. *)
Definition ADBEmulatorInterface_init (adb_path : string)
    (device_id : option string) : io (environment world) ADBEmulatorInterface :=
  let adb_prefix :=
    [adb_path] ++
    match device_id with
    | Some id => if String.eqb id "" then [] else ["-s"; id]
    | None => []
    end in
  let self := {| adb_path := adb_path;
                 device_id := device_id;
                 adb_prefix := adb_prefix;
                 vision_system := None |} in
  _ <~ _check_adb_connection self ;;
  ret self.

(** [ADBEmulatorInterface.get_screen] *)
Definition get_screen (self : ADBEmulatorInterface) : io (environment world) frame :=
  try_except
    (png_data <~ _run_adb_command self ["exec-out"; "screencap"; "-p"]
                   true false ;;
     match png_data with
     | Some data =>
         match Image_open_array data with
         | Some screen_np => ret (reverse_channels screen_np)
         | None => raise OtherException
         end
     | None => raise OtherException
     end)
    (fun _ => ret (zeros 960 540)).

(** [ADBEmulatorInterface.click] *)
Definition click (self : ADBEmulatorInterface) (x y : nat)
    : io (environment world) unit :=
  _ <~ _run_adb_command self ["shell"; "input"; "tap"; str x; str y]
         false false ;;
  ret tt.

(** [ADBEmulatorInterface.wait] *)
Definition ADBEmulatorInterface_wait (self : ADBEmulatorInterface)
    (duration : Q) : io (environment world) unit :=
  sleep duration.

(** [ADBEmulatorInterface.mouse_down], [mouse_move] and [mouse_up] only
    write to the log. *)
Definition mouse_down (self : ADBEmulatorInterface) (x y : nat)
    : io (environment world) unit := ret tt.

Definition mouse_move (self : ADBEmulatorInterface) (x y : nat)
    : io (environment world) unit := ret tt.

Definition mouse_up (self : ADBEmulatorInterface) (x y : nat)
    : io (environment world) unit := ret tt.

(** [ADBEmulatorInterface.get_card_location]; [linked] is the object
    that [self.vision_system] refers to when it is set. *)
Definition get_card_location (self : ADBEmulatorInterface)
    (linked : VisionSystem) (card_name : string) : outcome (option point) :=
  match vision_system self with
  | Some _ => get_card_coordinates linked card_name
  | None => Returned None
  end.

(** [Emulator.simulate_click_and_drag] *)
Definition simulate_click_and_drag (self : Emulator) (card_name : string)
    (position : point) : io (machine world) unit :=
  fun s =>
    (card_hand_location <~
       of_outcome (get_card_location (interface_object (objects s))
                     (vision_object (objects s)) card_name) ;;
     match card_hand_location with
     | Some card_hand_location =>
         _ <~ on_interface (fun interface =>
                _run_adb_command interface
                  (swipe_command card_hand_location position) false false) ;;
         ret tt
     | None => ret tt
     end) s.

(** [Emulator.perform_action], for an action with the entries its type
    needs. *)
Definition perform_action (self : Emulator) (action : action)
    : io (machine world) unit :=
  match action with
  | play_card card_name position =>
      simulate_click_and_drag self card_name position
  | wait duration =>
      let duration := match duration with Some d => d | None => 1%Q end in
      on_interface (fun interface =>
        ADBEmulatorInterface_wait interface duration)
  | do_nothing => ret tt
  | unknown_action _ => ret tt
  end.

(** ** [core/bot_loop.py] *)

(** [BotLoop.__init__], given the three template directories the
    [VisionSystem] loads from. *)
Definition BotLoop_init (cards_dir ui_elements_dir enemy_units_dir : directory)
    : io (environment world) (store * BotLoop) :=
  let vision := VisionSystem_new cards_dir ui_elements_dir enemy_units_dir in
  emulator_interface <~ ADBEmulatorInterface_init "adb" None ;;
  let '(objects, emulator) := Emulator_init emulator_interface vision in
  ret (objects,
       {| current_state := INITIALIZING;
          running := false;
          vision := the_vision_system;
          bot_emulator_interface := the_emulator_interface;
          emulator := emulator;
          strategy := StrategyEngine_init |}).

(** [BotLoop._handle_initializing_state] and [_handle_menu_state] only
    write to the log. *)
Definition _handle_initializing_state (self : BotLoop) : io (machine world) BotLoop :=
  ret self.

Definition _handle_menu_state (self : BotLoop) : io (machine world) BotLoop :=
  ret self.

(** [BotLoop._handle_battle_state] *)
Definition _handle_battle_state (self : BotLoop) : io (machine world) BotLoop :=
  screen_image <~ on_interface get_screen ;;
  game_info <~ on_vision (fun vision =>
                 analyze_battlefield vision screen_image) ;;
  let action := decide_action (strategy self) game_info in
  _ <~ match action with
       | Some action => perform_action (emulator self) action
       | None => ret tt
       end ;;
  chance <~ on_environment (fun e =>
              let '(outside', x) := random_rand (outside e) in
              ({| outside := outside'; commands := commands e |}, Ok x)) ;;
  if Qltb chance 0.1 then ret (set_current_state self POST_GAME)
  else ret self.

(** [BotLoop._handle_post_game_state] *)
Definition _handle_post_game_state (self : BotLoop) : io (machine world) BotLoop :=
  ret (set_current_state self ON_MENU).

(** The body of the loop of [BotLoop.run]. *)
Definition run_iteration (self : BotLoop) : io (machine world) BotLoop :=
  screen_image <~ on_interface get_screen ;;
  state <~ on_vision (fun vision =>
             get_current_game_state vision screen_image) ;;
  let self := set_current_state self state in
  self <~ match current_state self with
          | INITIALIZING => _handle_initializing_state self
          | ON_MENU => _handle_menu_state self
          | IN_BATTLE => _handle_battle_state self
          | POST_GAME => _handle_post_game_state self
          | STOPPED => ret (set_running self false)
          end ;;
  _ <~ on_environment (sleep 1) ;;
  ret self.

(** [BotLoop.run], for at most [fuel] iterations: [Some] of the object
    when the loop has ended, [None] when it is still going. *)
Fixpoint run (fuel : nat) (self : BotLoop) : io (machine world) (option BotLoop) :=
  if running self then
    match fuel with
    | 0 => ret None
    | S fuel => self <~ run_iteration self ;; run fuel self
    end
  else ret (Some self).

(** [BotLoop.start] *)
Definition start (fuel : nat) (self : BotLoop) : io (machine world) (option BotLoop) :=
  run fuel (set_running self true).

(** [BotLoop.stop] *)
Definition stop (self : BotLoop) : BotLoop := set_running self false.

(** ** Notions the statements below are phrased with *)

(** The template is no taller and no wider than the image searched. *)
Definition fits (template screen_image_gray : gray) : Prop :=
  shape0 template <= shape0 screen_image_gray /\
  shape1 template <= shape1 screen_image_gray.

(** The centre of the template when its top-left corner is at [p]. *)
Definition center_of (template : gray) (p : point) : point :=
  (fst p + shape1 template / 2, snd p + shape0 template / 2).

(** [S] holds a pixel-for-pixel copy of [T] with top-left corner [p]. *)
Definition exact_copy (S T : gray) (p : point) : Prop :=
  snd p + shape0 T <= shape0 S /\
  fst p + shape1 T <= shape1 S /\
  forall i j, i < shape0 T -> j < shape1 T ->
    item S (snd p + i) (fst p + j) = item T i j.

(** What normalized cross-correlation promises about its score map: one
    score per alignment, none above 1.0, and 1.0 at an exact copy. *)
Definition correlation_map (S T : gray) (res : scores) : Prop :=
  shape0 res = shape0 S - shape0 T + 1 /\
  shape1 res = shape1 S - shape1 T + 1 /\
  (forall q, in_bounds res q -> (score_at res q <= 1)%Q) /\
  (forall q, exact_copy S T q -> (score_at res q == 1)%Q).



(** The decision table of the phase classifier as the specification lists
    it: the UI element looked for and the phase it stands for, in order. *)
Definition classification_rules : list (string * GameState) :=
  [ ("Battle Indicator", IN_BATTLE);
    ("Play Button", ON_MENU);
    ("OK Button", POST_GAME);
    ("Home Button", ON_MENU) ].

(** The UI element [name] is in the store and is found at threshold 0.7. *)
Definition rule_matches (self : VisionSystem) (processed_screen : gray)
    (name : string) : Prop :=
  exists ui_template found,
    dict_get (ui_templates self) name = Some ui_template /\
    _find_template (Some processed_screen) (Some ui_template) 0.7 =
      Returned (Some found).

(** The UI element [name] is not in the store, or the search at threshold
    0.7 comes back empty. *)
Definition rule_misses (self : VisionSystem) (processed_screen : gray)
    (name : string) : Prop :=
  dict_get (ui_templates self) name = None \/
  exists ui_template,
    dict_get (ui_templates self) name = Some ui_template /\
    _find_template (Some processed_screen) (Some ui_template) 0.7 =
      Returned None.

(** [l] is [l'] with some elements left out, order kept. *)
Inductive subsequence {A : Type} : list A -> list A -> Prop :=
  | subsequence_nil : subsequence [] []
  | subsequence_skip (x : A) (l l' : list A) :
      subsequence l l' -> subsequence l (x :: l')
  | subsequence_take (x : A) (l l' : list A) :
      subsequence l l' -> subsequence (x :: l) (x :: l').

(** The command [get_screen] adds to [adb] for a screenshot. *)
Definition screencap_command : list string := ["exec-out"; "screencap"; "-p"].

(** The frame [get_screen] returns in environment [e]: the decoded
    screenshot with its channels reversed, or the 960 by 540 black frame
    when the command raises or its output cannot be decoded. *)
Definition captured_frame (self : ADBEmulatorInterface) (e : environment world)
    : frame :=
  match snd (subprocess_run (adb_prefix self ++ screencap_command)
               true false (outside e)) with
  | inl data =>
      match Image_open_array data with
      | Some screen_np => reverse_channels screen_np
      | None => zeros 960 540
      end
  | inr _ => zeros 960 540
  end.

(** The four positions [decide_action] chooses from. *)
Definition placement_positions (self : StrategyEngine) : list point :=
  [ left_lane_defensive self; right_lane_defensive self;
    middle_defensive self; middle_offensive self ].

(** A command the bot sends through [interface] with [strategy]: the
    screenshot, or a swipe to one of the placement positions. *)
Definition bot_command (interface : ADBEmulatorInterface)
    (strategy : StrategyEngine) (command : list string) : Prop :=
  command = adb_prefix interface ++ screencap_command \/
  exists start position,
    In position (placement_positions strategy) /\
    command = adb_prefix interface ++ swipe_command start position.

(** The cost [decide_action] sorts and filters by: the ["elixir_cost"]
    that [_get_card_properties] gives for the card's name. *)
Definition card_cost (self : StrategyEngine) (card : detected_card) : nat :=
  elixir_cost (_get_card_properties self (card_name card)).

(** The card's cost does not exceed the elixir reported. *)
Definition affordable (self : StrategyEngine) (info : game_info)
    (card : detected_card) : Prop :=
  (inject_Z (Z.of_nat (card_cost self card)) <= current_elixir info)%Q.

(** The dictionary returned for given detections; the remaining entries
    are the placeholders. *)
Definition game_info_of (cards : list detected_card)
    (units : list detected_unit) : game_info :=
  {| player_units := [];
     opponent_units := units;
     cards_in_hand := cards;
     current_elixir := 10.0;
     player_tower_health := {| king := 3000; left := 2000; right := 2000 |};
     opponent_tower_health := {| king := 3000; left := 2000; right := 2000 |};
     game_time_seconds := 60 |}.

(** * Properties *)

(** ** The scan of [cv2.minMaxLoc] *)

Lemma Qltb_true (a b : Q) : Qltb a b = true <-> (a < b)%Q.
Proof.
  unfold Qltb. rewrite negb_true_iff. split; intros H.
  - apply Qnot_le_lt. intros Hle. apply Qle_bool_iff in Hle. congruence.
  - destruct (Qle_bool b a) eqn:E; [|reflexivity].
    apply Qle_bool_iff in E. exfalso. exact (Qlt_not_le _ _ H E).
Qed.

Lemma Qltb_false (a b : Q) : Qltb a b = false <-> (b <= a)%Q.
Proof.
  unfold Qltb. rewrite negb_false_iff. apply Qle_bool_iff.
Qed.

Lemma scan_extrema_max (v : nat -> Q) (n : nat) :
  let '(_, (max_val, max_idx)) := scan_extrema v n in
  max_idx <= n /\ max_val = v max_idx /\
  (forall k, k <= n -> (v k <= max_val)%Q) /\
  (forall k, k < max_idx -> (v k < max_val)%Q).
Proof.
  induction n as [|n IH]; simpl.
  - split; [lia|]. split; [reflexivity|]. split; intros k Hk; [|lia].
    replace k with 0 by lia. apply Qle_refl.
  - destruct (scan_extrema v n) as [[mn imn] [mx imx]].
    destruct IH as (Hidx & Hval & Hle & Hlt).
    destruct (Qltb mx (v (S n))) eqn:E.
    + apply Qltb_true in E.
      split; [lia|]. split; [reflexivity|]. split; intros k Hk.
      * destruct (Nat.eq_dec k (S n)) as [->|Hne].
        -- apply Qle_refl.
        -- apply Qlt_le_weak. apply Qle_lt_trans with mx; [|exact E].
           apply Hle. lia.
      * apply Qle_lt_trans with mx; [|exact E]. apply Hle. lia.
    + apply Qltb_false in E.
      split; [lia|]. split; [exact Hval|]. split; [|exact Hlt].
      intros k Hk. destruct (Nat.eq_dec k (S n)) as [->|Hne].
      * exact E.
      * apply Hle. lia.
Qed.

(** The linear index of an in-bounds point, and back. *)
Lemma unravel_in_bounds (a : scores) (k : nat) :
  k < size a -> in_bounds a (unravel a k).
Proof.
  unfold size, in_bounds, unravel. simpl. intros Hk.
  assert (Hw : shape1 a <> 0) by (intros E; rewrite E in Hk; lia).
  split.
  - apply Nat.Div0.div_lt_upper_bound. lia.
  - apply Nat.mod_upper_bound. exact Hw.
Qed.

Lemma ravel_unravel (a : scores) (p : point) :
  in_bounds a p ->
  snd p * shape1 a + fst p < size a /\
  unravel a (snd p * shape1 a + fst p) = p.
Proof.
  destruct p as [x y]. unfold in_bounds, unravel, size. simpl. intros [Hy Hx].
  split; [nia|].
  rewrite Nat.add_comm, Nat.Div0.mod_add, Nat.div_add by lia.
  rewrite Nat.mod_small, Nat.div_small by exact Hx. reflexivity.
Qed.

Lemma row_major_before_ravel (a : scores) (p q : point) :
  in_bounds a p -> in_bounds a q ->
  row_major_before q p ->
  snd q * shape1 a + fst q < snd p * shape1 a + fst p.
Proof.
  destruct p as [x y], q as [x' y'].
  unfold in_bounds, row_major_before. simpl.
  intros [Hy Hx] [Hy' Hx'] [H|[H1 H2]]; nia.
Qed.

(** On a non-empty array [minMaxLoc] returns; its maximum is the score at
    the reported location, which is the best match. *)
Lemma minMaxLoc_best_match (a : scores) :
  size a <> 0 ->
  exists min_val min_loc max_loc,
    minMaxLoc a = Returned (min_val, score_at a max_loc, min_loc, max_loc) /\
    best_match a max_loc.
Proof.
  intros Hsize. unfold minMaxLoc.
  destruct (size a =? 0) eqn:E; [apply Nat.eqb_eq in E; contradiction|].
  pose proof (scan_extrema_max (flat_item a) (size a - 1)) as H.
  destruct (scan_extrema (flat_item a) (size a - 1)) as [[mn imn] [mx imx]].
  destruct H as (Hidx & Hval & Hle & Hlt).
  exists mn, (unravel a imn), (unravel a imx).
  assert (Hin : in_bounds a (unravel a imx)) by (apply unravel_in_bounds; lia).
  split.
  - rewrite Hval. reflexivity.
  - split; [exact Hin|]. intros q Hq.
    destruct (ravel_unravel a q Hq) as [Hk Hq'].
    assert (Hscore : forall k, score_at a (unravel a k) = flat_item a k)
      by reflexivity.
    rewrite <- Hq' at 1 3. rewrite !Hscore, <- Hval. split.
    + apply Hle. lia.
    + intros Hbefore. apply Hlt.
      pose proof (row_major_before_ravel a _ _ Hin Hq Hbefore) as Hlin.
      unfold unravel in Hlin. simpl in Hlin.
      assert (Hw : shape1 a <> 0) by (unfold size in Hsize; nia).
      pose proof (Nat.div_mod_eq imx (shape1 a)). lia.
Qed.

Lemma row_major_trichotomy (p q : point) :
  row_major_before p q \/ p = q \/ row_major_before q p.
Proof.
  destruct p as [x y], q as [x' y']. unfold row_major_before. simpl.
  destruct (Nat.lt_trichotomy y y') as [H|[H|H]]; [lia| |lia].
  destruct (Nat.lt_trichotomy x x') as [H'|[H'|H']]; [lia| |lia].
  right. left. congruence.
Qed.

Lemma best_match_unique (res : scores) (p q : point) :
  best_match res p -> best_match res q -> p = q.
Proof.
  intros [Hp Hbp] [Hq Hbq].
  destruct (row_major_trichotomy p q) as [H|[H|H]]; [|exact H|].
  - destruct (Hbq p Hp) as [_ Hlt]. destruct (Hbp q Hq) as [Hle _].
    exfalso. exact (Qlt_not_le _ _ (Hlt H) Hle).
  - destruct (Hbp q Hq) as [_ Hlt]. destruct (Hbq p Hp) as [Hle _].
    exfalso. exact (Qlt_not_le _ _ (Hlt H) Hle).
Qed.

(** ** [_find_template] once the template fits *)

Lemma find_template_searched (S T : gray) (threshold : Q) (res : scores)
    (p : point) :
  fits T S ->
  matchTemplate_CCOEFF_NORMED S T = Returned res ->
  best_match res p ->
  _find_template (Some S) (Some T) threshold =
    Returned (if Qle_bool threshold (score_at res p)
              then Some (center_of T p) else None).
Proof.
  intros [H0 H1] Hres Hbest. unfold _find_template.
  replace (shape0 S <? shape0 T) with false by (symmetry; apply Nat.ltb_ge; lia).
  replace (shape1 S <? shape1 T) with false by (symmetry; apply Nat.ltb_ge; lia).
  simpl. rewrite Hres. simpl.
  assert (Hsize : size res <> 0).
  { destruct Hbest as [[Hy Hx] _]. unfold size. nia. }
  destruct (minMaxLoc_best_match res Hsize) as (mn & lmin & lmax & Heq & Hb).
  rewrite Heq. simpl.
  rewrite (best_match_unique res lmax p Hb Hbest).
  destruct (Qle_bool threshold (score_at res p)); reflexivity.
Qed.

Lemma exact_copy_best_match (S T : gray) (res : scores) (q : point) :
  correlation_map S T res ->
  exact_copy S T q ->
  (forall q', in_bounds res q' -> row_major_before q' q ->
     (score_at res q' < 1)%Q) ->
  best_match res q /\ (score_at res q == 1)%Q.
Proof.
  intros (Hs0 & Hs1 & Hle & Hcopy) Hq Hfirst.
  pose proof (Hcopy q Hq) as Hone.
  destruct Hq as (Hy & Hx & _).
  split; [|exact Hone]. split.
  - unfold in_bounds. lia.
  - intros q' Hq'. split.
    + rewrite Hone. apply Hle. exact Hq'.
    + intros Hbefore. rewrite Hone. apply Hfirst; assumption.
Qed.

(** C5: when the template or the search image is absent, or the template
    is taller or wider than the search image, [_find_template] returns
    "not found" ([None]) as a normal result and does not raise. *)
Theorem find_template_rejects_absent_or_oversized
    (screen_image_gray template : option gray) (threshold : Q) :
  (template = None \/ screen_image_gray = None \/
   exists S T, screen_image_gray = Some S /\ template = Some T /\
               (shape0 T > shape0 S \/ shape1 T > shape1 S)) ->
  _find_template screen_image_gray template threshold = Returned None.
Proof.
  intros [H|[H|(S & T & HS & HT & Hbig)]]; subst; unfold _find_template.
  - reflexivity.
  - destruct template; reflexivity.
  - destruct Hbig as [H|H].
    + replace (shape0 S <? shape0 T) with true
        by (symmetry; apply Nat.ltb_lt; lia).
      reflexivity.
    + replace (shape1 S <? shape1 T) with true
        by (symmetry; apply Nat.ltb_lt; lia).
      rewrite orb_true_r. reflexivity.
Qed.

(** C1 (amended): when the template fits and the matcher returns a
    non-empty score map, there is a best alignment [p] (the maximum score
    over all alignments, first in scan order among those that attain it);
    [_find_template] returns the template's centre at [p], that is
    [(x + width // 2, y + height // 2)], when that score reaches the
    threshold, and "not found" when it is below. For a score map of a
    normalized cross-correlation, an exact copy of the template at [q] is
    returned as [(ox + width // 2, oy + height // 2)] for every threshold
    up to 1.0, provided no alignment scanned before [q] also scores 1.0. *)
Theorem find_template_returns_best_center (S T : gray) (threshold : Q)
    (res : scores) :
  fits T S ->
  matchTemplate_CCOEFF_NORMED S T = Returned res ->
  size res <> 0 ->
  exists p,
    best_match res p /\
    ((threshold <= score_at res p)%Q ->
       _find_template (Some S) (Some T) threshold =
         Returned (Some (fst p + shape1 T / 2, snd p + shape0 T / 2))) /\
    ((score_at res p < threshold)%Q ->
       _find_template (Some S) (Some T) threshold = Returned None) /\
    (correlation_map S T res ->
     forall q, exact_copy S T q -> (threshold <= 1)%Q ->
       (forall q', in_bounds res q' -> row_major_before q' q ->
          (score_at res q' < 1)%Q) ->
       p = q /\
       _find_template (Some S) (Some T) threshold =
         Returned (Some (fst q + shape1 T / 2, snd q + shape0 T / 2))).
Proof.
  intros Hfits Hres Hsize.
  destruct (minMaxLoc_best_match res Hsize) as (mn & lmin & p & _ & Hbest).
  exists p. split; [exact Hbest|].
  pose proof (find_template_searched S T threshold res p Hfits Hres Hbest)
    as Hfind.
  assert (Hge : (threshold <= score_at res p)%Q ->
            _find_template (Some S) (Some T) threshold =
              Returned (Some (fst p + shape1 T / 2, snd p + shape0 T / 2))).
  { intros Hthr. rewrite Hfind.
    apply Qle_bool_iff in Hthr. rewrite Hthr. reflexivity. }
  split; [exact Hge|]. split.
  - intros Hthr. rewrite Hfind.
    destruct (Qle_bool threshold (score_at res p)) eqn:E; [|reflexivity].
    apply Qle_bool_iff in E. exfalso. exact (Qlt_not_le _ _ Hthr E).
  - intros Hmap q Hq Hthr Hfirst.
    destruct (exact_copy_best_match S T res q Hmap Hq Hfirst) as [Hbq Hone].
    assert (Hpq : p = q) by (exact (best_match_unique res p q Hbest Hbq)).
    split; [exact Hpq|]. rewrite <- Hpq. apply Hge.
    rewrite Hpq, Hone. exact Hthr.
Qed.

(** ** The phase classifier *)

Lemma rule_matches_detected (self : VisionSystem) (processed_screen : gray)
    (name : string) :
  rule_matches self processed_screen name ->
  ui_element_detected self processed_screen name = Returned true.
Proof.
  intros (T & found & Hget & Hfind). unfold ui_element_detected.
  rewrite Hget, Hfind. reflexivity.
Qed.

Lemma rule_misses_detected (self : VisionSystem) (processed_screen : gray)
    (name : string) :
  rule_misses self processed_screen name ->
  ui_element_detected self processed_screen name = Returned false.
Proof.
  intros [Hget|(T & Hget & Hfind)]; unfold ui_element_detected.
  - rewrite Hget. reflexivity.
  - rewrite Hget, Hfind. reflexivity.
Qed.

(** The body of [get_current_game_state] after preprocessing. *)
Lemma get_current_game_state_processed (self : VisionSystem)
    (image_np : frame) (processed_screen : gray) :
  _preprocess_image image_np = Returned processed_screen ->
  snd (get_current_game_state self image_np) =
    (battle_indicator_pos <-
       ui_element_detected self processed_screen "Battle Indicator" ;;
     if battle_indicator_pos then Returned IN_BATTLE else
     play_button_pos <-
       ui_element_detected self processed_screen "Play Button" ;;
     if play_button_pos then Returned ON_MENU else
     ok_button_pos <-
       ui_element_detected self processed_screen "OK Button" ;;
     if ok_button_pos then Returned POST_GAME else
     home_button_pos <-
       ui_element_detected self processed_screen "Home Button" ;;
     if home_button_pos then Returned ON_MENU else
     Returned IN_BATTLE).
Proof.
  intros Hpre. unfold get_current_game_state. simpl snd.
  rewrite Hpre. reflexivity.
Qed.

Ltac rule_step :=
  match goal with
  | H : rule_matches ?self ?g ?n |- context [ui_element_detected ?self ?g ?n] =>
      rewrite (rule_matches_detected self g n H); simpl bind
  | H : rule_misses ?self ?g ?n |- context [ui_element_detected ?self ?g ?n] =>
      rewrite (rule_misses_detected self g n H); simpl bind
  end.

(** C2: the UI rules are tried in the order battle indicator (in battle),
    play button (on menu), ok button (post game), home button (on menu),
    each at threshold 0.7; the first rule that matches, all rules before
    it having missed, gives the phase. A frame on which both the battle
    indicator and the play button match is classified in battle. *)
Theorem classify_first_match_wins (self : VisionSystem) (image_np : frame)
    (processed_screen : gray) :
  _preprocess_image image_np = Returned processed_screen ->
  (forall before name state after,
     classification_rules = before ++ (name, state) :: after ->
     Forall (fun rule => rule_misses self processed_screen (fst rule)) before ->
     rule_matches self processed_screen name ->
     snd (get_current_game_state self image_np) = Returned state) /\
  (rule_matches self processed_screen "Battle Indicator" ->
   rule_matches self processed_screen "Play Button" ->
   snd (get_current_game_state self image_np) = Returned IN_BATTLE).
Proof.
  intros Hpre.
  rewrite (get_current_game_state_processed self image_np processed_screen Hpre).
  split.
  - intros before name state after Hrules Hmiss Hmatch.
    unfold classification_rules in Hrules.
    destruct before as [|r1 [|r2 [|r3 [|r4 rest]]]]; simpl in Hrules.
    + injection Hrules as <- <- _. rule_step. reflexivity.
    + injection Hrules as <- <- <- _.
      inversion Hmiss as [|? ? H1 _]; subst. simpl in H1.
      repeat rule_step. reflexivity.
    + injection Hrules as <- <- <- <- _.
      inversion Hmiss as [|? ? H1 Hmiss']; subst.
      inversion Hmiss' as [|? ? H2 _]; subst. simpl in H1, H2.
      repeat rule_step. reflexivity.
    + injection Hrules as <- <- <- <- <- _.
      inversion Hmiss as [|? ? H1 Hmiss']; subst.
      inversion Hmiss' as [|? ? H2 Hmiss'']; subst.
      inversion Hmiss'' as [|? ? H3 _]; subst. simpl in H1, H2, H3.
      repeat rule_step. reflexivity.
    + injection Hrules as _ _ _ _ Hnil.
      destruct rest; discriminate Hnil.
  - intros Hbattle _. rule_step. reflexivity.
Qed.

(** C3: when none of the four UI rules (battle indicator, play button,
    ok button, home button) gives a match at threshold 0.7, the template
    being absent from the store or not found in the frame, the classifier
    returns the in-battle phase, its fallback. *)
Theorem classify_fallback_in_battle (self : VisionSystem) (image_np : frame)
    (processed_screen : gray) :
  _preprocess_image image_np = Returned processed_screen ->
  (forall rule, In rule classification_rules ->
     rule_misses self processed_screen (fst rule)) ->
  snd (get_current_game_state self image_np) = Returned IN_BATTLE.
Proof.
  intros Hpre Hmiss.
  rewrite (get_current_game_state_processed self image_np processed_screen Hpre).
  assert (H1 := Hmiss _ (or_introl eq_refl)).
  assert (H2 := Hmiss _ (or_intror (or_introl eq_refl))).
  assert (H3 := Hmiss _ (or_intror (or_intror (or_introl eq_refl)))).
  assert (H4 := Hmiss _ (or_intror (or_intror (or_intror (or_introl eq_refl))))).
  simpl in H1, H2, H3, H4.
  repeat rule_step. reflexivity.
Qed.

(** C9: classifying the same frame twice gives the same phase both times;
    the first call's write to [latest_screenshot] changes neither the
    second result nor the object further, and the result does not depend
    on the frame stored before the call. *)
Theorem classify_twice_same_phase (self : VisionSystem) (image_np : frame) :
  let first := get_current_game_state self image_np in
  let second := get_current_game_state (fst first) image_np in
  snd second = snd first /\
  fst second = fst first /\
  forall previous,
    snd (get_current_game_state (set_latest_screenshot self previous) image_np)
    = snd first.
Proof.
  simpl. repeat split.
Qed.

(** C10: whatever the frame, a phase returned by the classifier is in
    battle, on menu or post game; it is never initializing or stopped. The
    only other outcome is an exception of an OpenCV call. *)
Theorem classify_returns_three_phases (self : VisionSystem) (image_np : frame) :
  let result := snd (get_current_game_state self image_np) in
  ((exists e, result = Raised e) \/
   result = Returned IN_BATTLE \/
   result = Returned ON_MENU \/
   result = Returned POST_GAME) /\
  result <> Returned INITIALIZING /\
  result <> Returned STOPPED.
Proof.
  assert (H : forall (m : outcome bool) (s : GameState) (k : outcome GameState),
    (forall P : outcome GameState -> Prop,
       (forall e, P (Raised e)) -> P (Returned s) -> P k ->
       P (found <- m ;; if found then Returned s else k))).
  { intros m s k P Hraise Hs Hk. destruct m as [[|]|e]; simpl; auto. }
  set (P := fun r : outcome GameState =>
    ((exists e, r = Raised e) \/ r = Returned IN_BATTLE \/
     r = Returned ON_MENU \/ r = Returned POST_GAME) /\
    r <> Returned INITIALIZING /\ r <> Returned STOPPED).
  assert (Hraise : forall e, P (Raised e)).
  { intros e. unfold P. repeat split; eauto; discriminate. }
  assert (Hb : P (Returned IN_BATTLE)).
  { unfold P. repeat split; auto; discriminate. }
  assert (Hm : P (Returned ON_MENU)).
  { unfold P. repeat split; auto; discriminate. }
  assert (Hg : P (Returned POST_GAME)).
  { unfold P. repeat split; auto; discriminate. }
  change (P (snd (get_current_game_state self image_np))).
  unfold get_current_game_state. simpl snd.
  destruct (_preprocess_image image_np) as [processed_screen|e];
    [|exact (Hraise e)].
  simpl bind.
  apply H; auto. apply H; auto. apply H; auto. apply H; auto.
Qed.

(** ** The scene analyzer *)

Lemma for_card_templates_entries (roi_image_hand : gray)
    (hand_x_start hand_y_start : nat) (items : list (string * gray)) :
  forall acc detected,
    for_card_templates roi_image_hand hand_x_start hand_y_start items acc
      = Returned detected ->
    forall c, In c detected <->
      In c acc \/
      exists name template x y,
        In (name, template) items /\
        _find_template (Some roi_image_hand) (Some template) 0.85
          = Returned (Some (x, y)) /\
        c = {| card_name := name;
               card_position := (x + hand_x_start, y + hand_y_start);
               card_elixir_cost := 3;
               card_type := "unit" |}.
Proof.
  induction items as [|[name template] rest IH]; intros acc detected Hrun c.
  - simpl in Hrun. injection Hrun as <-. split; [auto|].
    intros [H|(? & ? & ? & ? & [] & _)]. exact H.
  - cbn [for_card_templates] in Hrun.
    destruct (_find_template (Some roi_image_hand) (Some template) 0.85)
      as [[[x y]|]|e] eqn:Hfind; cbn [bind fst snd] in Hrun; [| |discriminate].
    + rewrite (IH _ _ Hrun c), in_app_iff. cbn [In]. split.
      * intros [[H|[H|[]]]|(n & t & x' & y' & Hin & Hf & Hc)].
        -- left. exact H.
        -- right. exists name, template, x, y. auto.
        -- right. exists n, t, x', y'. auto.
      * intros [H|(n & t & x' & y' & [Heq|Hin] & Hf & Hc)].
        -- left. left. exact H.
        -- injection Heq as Hn Ht. subst n t. rewrite Hfind in Hf.
           injection Hf as Hx Hy. subst x' y'. left. right. left. auto.
        -- right. exists n, t, x', y'. auto.
    + rewrite (IH _ _ Hrun c). cbn [In]. split.
      * intros [H|(n & t & x' & y' & Hin & Hf & Hc)]; [left; exact H|].
        right. exists n, t, x', y'. auto.
      * intros [H|(n & t & x' & y' & [Heq|Hin] & Hf & Hc)]; [left; exact H| |].
        -- injection Heq as Hn Ht. subst n t. rewrite Hfind in Hf.
           discriminate.
        -- right. exists n, t, x', y'. auto.
Qed.

Lemma for_enemy_unit_templates_entries (roi_image_enemy_field : gray)
    (enemy_field_x_start enemy_field_y_start : nat)
    (items : list (string * gray)) :
  forall acc detected,
    for_enemy_unit_templates roi_image_enemy_field
      enemy_field_x_start enemy_field_y_start items acc = Returned detected ->
    forall u, In u detected <->
      In u acc \/
      exists name template x y,
        In (name, template) items /\
        _find_template (Some roi_image_enemy_field) (Some template) 0.85
          = Returned (Some (x, y)) /\
        u = {| unit_name := name;
               unit_position :=
                 (x + enemy_field_x_start, y + enemy_field_y_start);
               unit_health := 100;
               unit_type := "unit" |}.
Proof.
  induction items as [|[name template] rest IH]; intros acc detected Hrun u.
  - simpl in Hrun. injection Hrun as <-. split; [auto|].
    intros [H|(? & ? & ? & ? & [] & _)]. exact H.
  - cbn [for_enemy_unit_templates] in Hrun.
    destruct (_find_template (Some roi_image_enemy_field) (Some template) 0.85)
      as [[[x y]|]|e] eqn:Hfind; cbn [bind fst snd] in Hrun; [| |discriminate].
    + rewrite (IH _ _ Hrun u), in_app_iff. cbn [In]. split.
      * intros [[H|[H|[]]]|(n & t & x' & y' & Hin & Hf & Hc)].
        -- left. exact H.
        -- right. exists name, template, x, y. auto.
        -- right. exists n, t, x', y'. auto.
      * intros [H|(n & t & x' & y' & [Heq|Hin] & Hf & Hc)].
        -- left. left. exact H.
        -- injection Heq as Hn Ht. subst n t. rewrite Hfind in Hf.
           injection Hf as Hx Hy. subst x' y'. left. right. left. auto.
        -- right. exists n, t, x', y'. auto.
    + rewrite (IH _ _ Hrun u). cbn [In]. split.
      * intros [H|(n & t & x' & y' & Hin & Hf & Hc)]; [left; exact H|].
        right. exists n, t, x', y'. auto.
      * intros [H|(n & t & x' & y' & [Heq|Hin] & Hf & Hc)]; [left; exact H| |].
        -- injection Heq as Hn Ht. subst n t. rewrite Hfind in Hf.
           discriminate.
        -- right. exists n, t, x', y'. auto.
Qed.

(** A pixel of a crop is the pixel of the full image at the crop-local
    coordinates plus the region's top-left corner. *)
Lemma crop_roi_item (processed_image : gray) (r : roi) (x y : nat) :
  in_bounds (crop_roi processed_image r) (x, y) ->
  item (crop_roi processed_image r) y x
  = item processed_image (y + roi_1 r) (x + roi_0 r).
Proof.
  destruct r as [[[x_start y_start] x_end] y_end].
  unfold in_bounds, crop_roi, slice2. simpl. intros [Hy Hx].
  f_equal; lia.
Qed.

(** A crop is empty exactly when the image ends at or before the
    region's top or left side, or the region itself is empty. *)
Lemma crop_roi_empty (processed_image : gray) (r : roi) :
  size (crop_roi processed_image r) = 0 <->
  shape0 processed_image <= roi_1 r \/ roi_3 r <= roi_1 r \/
  shape1 processed_image <= roi_0 r \/ roi_2 r <= roi_0 r.
Proof.
  destruct r as [[[x_start y_start] x_end] y_end].
  unfold size, crop_roi, slice2. simpl.
  rewrite Nat.mul_eq_0. lia.
Qed.

(** The body of [analyze_battlefield] after preprocessing. *)
Lemma analyze_battlefield_processed (self : VisionSystem) (image_np : frame)
    (processed_image : gray) :
  _preprocess_image image_np = Returned processed_image ->
  snd (analyze_battlefield self image_np) =
    (detected_cards_in_hand <- detect_cards_in_hand self processed_image ;;
     detected_opponent_units <- detect_opponent_units self processed_image ;;
     Returned (game_info_of detected_cards_in_hand detected_opponent_units)).
Proof.
  intros Hpre. unfold analyze_battlefield. simpl snd. rewrite Hpre. reflexivity.
Qed.

(** C4: the detected cards are exactly the card templates found at
    threshold 0.85 in the hand-region crop of the preprocessed frame, each
    at the crop-local match position plus the hand region's top-left
    corner (left added to x, top added to y), which is where that pixel
    of the crop lies in the full frame; the same holds for enemy units
    and the enemy-field region. *)
Theorem analyze_remaps_roi_matches (self : VisionSystem) (image_np : frame)
    (processed_image : gray) (info : game_info) :
  _preprocess_image image_np = Returned processed_image ->
  snd (analyze_battlefield self image_np) = Returned info ->
  (forall c, In c (cards_in_hand info) <->
     size (crop_roi processed_image (hand_roi self)) <> 0 /\
     exists name template x y,
       In (name, template) (card_templates self) /\
       _find_template (Some (crop_roi processed_image (hand_roi self)))
         (Some template) 0.85 = Returned (Some (x, y)) /\
       c = {| card_name := name;
              card_position :=
                (x + roi_0 (hand_roi self), y + roi_1 (hand_roi self));
              card_elixir_cost := 3;
              card_type := "unit" |}) /\
  (forall u, In u (opponent_units info) <->
     size (crop_roi processed_image (enemy_field_roi self)) <> 0 /\
     exists name template x y,
       In (name, template) (enemy_unit_templates self) /\
       _find_template (Some (crop_roi processed_image (enemy_field_roi self)))
         (Some template) 0.85 = Returned (Some (x, y)) /\
       u = {| unit_name := name;
              unit_position :=
                (x + roi_0 (enemy_field_roi self),
                 y + roi_1 (enemy_field_roi self));
              unit_health := 100;
              unit_type := "unit" |}) /\
  (forall r x y,
     in_bounds (crop_roi processed_image r) (x, y) ->
     item (crop_roi processed_image r) y x
     = item processed_image (y + roi_1 r) (x + roi_0 r)).
Proof.
  intros Hpre Hrun.
  rewrite (analyze_battlefield_processed self image_np processed_image Hpre)
    in Hrun.
  destruct (detect_cards_in_hand self processed_image) as [cards|e] eqn:Hcards;
    simpl in Hrun; [|discriminate].
  destruct (detect_opponent_units self processed_image) as [units|e] eqn:Hunits;
    simpl in Hrun; [|discriminate].
  injection Hrun as <-. simpl. split; [|split].
  - intros c. unfold detect_cards_in_hand in Hcards.
    destruct (hand_roi self) as [[[x_start y_start] x_end] y_end] eqn:Hroi.
    simpl roi_0. simpl roi_1.
    destruct (size (crop_roi processed_image (x_start, y_start, x_end, y_end))
              =? 0) eqn:E.
    + injection Hcards as <-. apply Nat.eqb_eq in E. simpl. tauto.
    + apply Nat.eqb_neq in E.
      rewrite (for_card_templates_entries _ _ _ _ _ _ Hcards c). simpl. tauto.
  - intros u. unfold detect_opponent_units in Hunits.
    destruct (enemy_field_roi self) as [[[x_start y_start] x_end] y_end] eqn:Hroi.
    simpl roi_0. simpl roi_1.
    destruct (size (crop_roi processed_image (x_start, y_start, x_end, y_end))
              =? 0) eqn:E.
    + injection Hunits as <-. apply Nat.eqb_eq in E. simpl. tauto.
    + apply Nat.eqb_neq in E.
      rewrite (for_enemy_unit_templates_entries _ _ _ _ _ _ Hunits u).
      simpl. tauto.
  - intros r x y. apply crop_roi_item.
Qed.

(** C8: when the hand-region crop of the preprocessed frame is empty, the
    card detection returns no card and raises nothing, so the analysis
    goes on to the enemy units with an empty card list, and every result
    it returns has no detected card; when the enemy-field crop is empty
    as well, the analysis returns the scene with no card and no enemy
    unit. The hand crop is empty exactly when the frame is not taller
    than the region's top or not wider than its left side (or the region
    is empty), as for a 1 by 1 frame. *)
Theorem analyze_empty_hand_roi (self : VisionSystem) (image_np : frame)
    (processed_image : gray) :
  _preprocess_image image_np = Returned processed_image ->
  size (crop_roi processed_image (hand_roi self)) = 0 ->
  detect_cards_in_hand self processed_image = Returned [] /\
  snd (analyze_battlefield self image_np) =
    (detected_opponent_units <- detect_opponent_units self processed_image ;;
     Returned (game_info_of [] detected_opponent_units)) /\
  (forall info,
     snd (analyze_battlefield self image_np) = Returned info ->
     cards_in_hand info = []) /\
  (size (crop_roi processed_image (enemy_field_roi self)) = 0 ->
   snd (analyze_battlefield self image_np) = Returned (game_info_of [] [])) /\
  (size (crop_roi processed_image (hand_roi self)) = 0 <->
   shape0 processed_image <= roi_1 (hand_roi self) \/
   roi_3 (hand_roi self) <= roi_1 (hand_roi self) \/
   shape1 processed_image <= roi_0 (hand_roi self) \/
   roi_2 (hand_roi self) <= roi_0 (hand_roi self)).
Proof.
  intros Hpre Hempty.
  assert (Hcards : detect_cards_in_hand self processed_image = Returned []).
  { unfold detect_cards_in_hand.
    destruct (hand_roi self) as [[[x_start y_start] x_end] y_end].
    rewrite Hempty. reflexivity. }
  rewrite (analyze_battlefield_processed self image_np processed_image Hpre).
  rewrite Hcards. simpl bind.
  split; [reflexivity|]. split; [reflexivity|]. split; [|split].
  - intros info Hrun.
    destruct (detect_opponent_units self processed_image) as [units|e];
      simpl in Hrun; [|discriminate].
    injection Hrun as <-. reflexivity.
  - intros Hempty'. unfold detect_opponent_units.
    destruct (enemy_field_roi self) as [[[x_start y_start] x_end] y_end].
    rewrite Hempty'. reflexivity.
  - apply crop_roi_empty.
Qed.

(** ** The coordinate resolver *)

(** C6: [get_card_coordinates] returns "not found" without raising when
    no frame has been stored yet, and when the card dictionary has no
    template under the card name with underscores replaced by spaces and
    title-cased; otherwise it preprocesses the stored frame and searches
    the whole of it, uncropped, at threshold 0.8. Asked for "fireball"
    right after construction, it returns "not found". *)
Theorem get_card_coordinates_soft_failure (self : VisionSystem)
    (card_name : string) :
  (latest_screenshot self = None ->
   get_card_coordinates self card_name = Returned None) /\
  (dict_get (card_templates self) (title (replace "_" " " card_name)) = None ->
   get_card_coordinates self card_name = Returned None) /\
  (forall latest card_template,
     latest_screenshot self = Some latest ->
     dict_get (card_templates self) (title (replace "_" " " card_name))
       = Some card_template ->
     get_card_coordinates self card_name =
       (screen_gray <- _preprocess_image latest ;;
        _find_template (Some screen_gray) (Some card_template) 0.8)) /\
  (forall cards ui_elements enemy_units,
     get_card_coordinates (__init__ cards ui_elements enemy_units) "fireball"
     = Returned None).
Proof.
  unfold get_card_coordinates. repeat split.
  - intros H. rewrite H. reflexivity.
  - intros H. rewrite H. destruct (latest_screenshot self); reflexivity.
  - intros latest card_template Hlatest Hget. rewrite Hlatest, Hget.
    destruct (_preprocess_image latest) as [screen_gray|e]; [|reflexivity].
    cbn [bind].
    destruct (_find_template (Some screen_gray) (Some card_template) 0.8)
      as [[found|]|e]; reflexivity.
Qed.

(** ** Order of the detections and the stored frame *)

Lemma for_card_templates_order (roi_image_hand : gray)
    (hand_x_start hand_y_start : nat) (items : list (string * gray)) :
  forall acc detected,
    for_card_templates roi_image_hand hand_x_start hand_y_start items acc
      = Returned detected ->
    exists added,
      detected = acc ++ added /\
      subsequence (map card_name added) (map fst items).
Proof.
  induction items as [|[name template] rest IH]; intros acc detected Hrun.
  - injection Hrun as <-. exists []. rewrite app_nil_r.
    split; [reflexivity|constructor].
  - cbn [for_card_templates] in Hrun.
    destruct (_find_template (Some roi_image_hand) (Some template) 0.85)
      as [[found|]|e]; cbn [bind] in Hrun; [| |discriminate].
    + destruct (IH _ _ Hrun) as (added & -> & Hsub).
      eexists. rewrite <- app_assoc. split; [reflexivity|].
      simpl. apply subsequence_take. exact Hsub.
    + destruct (IH _ _ Hrun) as (added & -> & Hsub).
      exists added. split; [reflexivity|].
      simpl. apply subsequence_skip. exact Hsub.
Qed.

Lemma for_enemy_unit_templates_order (roi_image_enemy_field : gray)
    (enemy_field_x_start enemy_field_y_start : nat)
    (items : list (string * gray)) :
  forall acc detected,
    for_enemy_unit_templates roi_image_enemy_field
      enemy_field_x_start enemy_field_y_start items acc = Returned detected ->
    exists added,
      detected = acc ++ added /\
      subsequence (map unit_name added) (map fst items).
Proof.
  induction items as [|[name template] rest IH]; intros acc detected Hrun.
  - injection Hrun as <-. exists []. rewrite app_nil_r.
    split; [reflexivity|constructor].
  - cbn [for_enemy_unit_templates] in Hrun.
    destruct (_find_template (Some roi_image_enemy_field) (Some template) 0.85)
      as [[found|]|e]; cbn [bind] in Hrun; [| |discriminate].
    + destruct (IH _ _ Hrun) as (added & -> & Hsub).
      eexists. rewrite <- app_assoc. split; [reflexivity|].
      simpl. apply subsequence_take. exact Hsub.
    + destruct (IH _ _ Hrun) as (added & -> & Hsub).
      exists added. split; [reflexivity|].
      simpl. apply subsequence_skip. exact Hsub.
Qed.

Lemma subsequence_of_nil {A : Type} (l : list A) : subsequence [] l.
Proof. induction l; constructor; assumption. Qed.

(** X1: the names of the detected cards, in the order reported, are the
    keys of the card dictionary in iteration order with some left out:
    detections follow the dictionary's order and a template contributes
    at most one entry. The same holds for the enemy units. *)
Theorem analyze_detections_in_template_order (self : VisionSystem)
    (image_np : frame) (info : game_info) :
  snd (analyze_battlefield self image_np) = Returned info ->
  subsequence (map card_name (cards_in_hand info))
              (map fst (card_templates self)) /\
  subsequence (map unit_name (opponent_units info))
              (map fst (enemy_unit_templates self)).
Proof.
  unfold analyze_battlefield. simpl snd. intros Hrun.
  destruct (_preprocess_image image_np) as [processed|e];
    cbn [bind] in Hrun; [|discriminate].
  destruct (detect_cards_in_hand _ processed) as [cards|e] eqn:Hcards;
    cbn [bind] in Hrun; [|discriminate].
  destruct (detect_opponent_units _ processed) as [units|e] eqn:Hunits;
    cbn [bind] in Hrun; [|discriminate].
  injection Hrun as <-. cbn [cards_in_hand opponent_units]. split.
  - unfold detect_cards_in_hand in Hcards. cbn [hand_roi set_latest_screenshot
      card_templates] in Hcards.
    destruct (hand_roi self) as [[[x_start y_start] x_end] y_end].
    destruct (size _ =? 0).
    + injection Hcards as <-. apply subsequence_of_nil.
    + destruct (for_card_templates_order _ _ _ _ _ _ Hcards)
        as (added & -> & Hsub). exact Hsub.
  - unfold detect_opponent_units in Hunits. cbn [enemy_field_roi
      set_latest_screenshot enemy_unit_templates] in Hunits.
    destruct (enemy_field_roi self) as [[[x_start y_start] x_end] y_end].
    destruct (size _ =? 0).
    + injection Hunits as <-. apply subsequence_of_nil.
    + destruct (for_enemy_unit_templates_order _ _ _ _ _ _ Hunits)
        as (added & -> & Hsub). exact Hsub.
Qed.

(** X2: classification and analysis both store the frame they are given
    as the latest frame and leave the rest of the object as it was; a
    card lookup made afterwards searches that frame. *)
Theorem latest_frame_recorded_and_reused (self : VisionSystem)
    (image_np : frame) (card_name : string) :
  fst (get_current_game_state self image_np)
    = set_latest_screenshot self image_np /\
  fst (analyze_battlefield self image_np)
    = set_latest_screenshot self image_np /\
  latest_screenshot (set_latest_screenshot self image_np) = Some image_np /\
  card_templates (set_latest_screenshot self image_np) = card_templates self /\
  ui_templates (set_latest_screenshot self image_np) = ui_templates self /\
  enemy_unit_templates (set_latest_screenshot self image_np)
    = enemy_unit_templates self /\
  get_card_coordinates (fst (get_current_game_state self image_np)) card_name
    = match dict_get (card_templates self)
              (title (replace "_" " " card_name)) with
      | None => Returned None
      | Some card_template =>
          screen_gray <- _preprocess_image image_np ;;
          _find_template (Some screen_gray) (Some card_template) 0.8
      end.
Proof.
  repeat split. unfold get_card_coordinates, get_current_game_state.
  cbn [fst latest_screenshot card_templates set_latest_screenshot].
  destruct (dict_get (card_templates self) (title (replace "_" " " card_name)))
    as [card_template|]; [|reflexivity].
  destruct (_preprocess_image image_np) as [screen_gray|e]; [|reflexivity].
  cbn [bind].
  destruct (_find_template (Some screen_gray) (Some card_template) 0.8)
    as [[found|]|e]; reflexivity.
Qed.

(** ** The strategy engine *)

Lemma insert_by_key_In {A : Type} (key : A -> nat) (x y : A) (l : list A) :
  In y (insert_by_key key x l) <-> y = x \/ In y l.
Proof.
  induction l as [|z l IH]; simpl.
  - intuition.
  - destruct (key x <=? key z); simpl; [|rewrite IH]; intuition.
Qed.

Lemma sorted_In {A : Type} (key : A -> nat) (y : A) (l : list A) :
  In y (sorted key l) <-> In y l.
Proof.
  induction l as [|x l IH]; simpl; [tauto|].
  rewrite insert_by_key_In, IH. intuition.
Qed.

(** The result is in key order... *)
Lemma sorted_in_key_order {A : Type} (key : A -> nat) (l : list A) :
  StronglySorted (fun x y => key x <= key y) (sorted key l).
Proof.
  induction l as [|x l IH]; simpl; [constructor|].
  induction IH as [|y r Hr IHr Hy]; simpl; [repeat constructor|].
  destruct (key x <=? key y) eqn:E.
  - apply Nat.leb_le in E. constructor; [constructor; assumption|].
    constructor; [exact E|].
    apply Forall_impl with (2 := Hy). intros z Hz. lia.
  - apply Nat.leb_gt in E. constructor; [exact IHr|].
    apply Forall_forall. intros z Hz. apply insert_by_key_In in Hz.
    destruct Hz as [->|Hz]; [lia|].
    rewrite Forall_forall in Hy. apply Hy. exact Hz.
Qed.

(** ... and elements of equal key keep their order. *)
Lemma sorted_stable {A : Type} (key : A -> nat) (k : nat) (l : list A) :
  filter (fun x => key x =? k) (sorted key l)
  = filter (fun x => key x =? k) l.
Proof.
  induction l as [|x l IH]; simpl; [reflexivity|].
  rewrite <- IH. clear IH. generalize (sorted key l) as r.
  induction r as [|y r IHr]; simpl; [reflexivity|].
  destruct (key x <=? key y) eqn:E; simpl; [reflexivity|].
  apply Nat.leb_gt in E. rewrite IHr.
  destruct (key x =? k) eqn:Ex; destruct (key y =? k) eqn:Ey; try reflexivity.
  apply Nat.eqb_eq in Ex, Ey. lia.
Qed.

(** The first element of the sorted list: strictly below everything
    before it in the original list, not above anything after it. *)
Lemma sorted_head {A : Type} (key : A -> nat) (l : list A) (x : A)
    (rest : list A) :
  sorted key l = x :: rest ->
  exists before after,
    l = before ++ x :: after /\
    (forall y, In y before -> key x < key y) /\
    (forall y, In y after -> key x <= key y).
Proof.
  revert x rest. induction l as [|a l IH]; intros x rest Hsorted.
  - discriminate.
  - simpl in Hsorted. destruct (sorted key l) as [|y r] eqn:Hl.
    + assert (l = []) as ->.
      { destruct l as [|b l]; [reflexivity|].
        assert (Hin : In b (sorted key (b :: l)))
          by (apply sorted_In; left; reflexivity).
        rewrite Hl in Hin. destruct Hin. }
      simpl in Hsorted. injection Hsorted as <- _.
      exists [], []. repeat split; intros y [].
    + destruct (IH y r eq_refl) as (before & after & -> & Hb & Ha).
      simpl in Hsorted. destruct (key a <=? key y) eqn:E.
      * apply Nat.leb_le in E. injection Hsorted as <- _.
        exists [], (before ++ y :: after). split; [reflexivity|].
        split; [intros z []|].
        intros z Hz. apply in_app_iff in Hz.
        destruct Hz as [Hz|[<-|Hz]].
        -- specialize (Hb z Hz). lia.
        -- exact E.
        -- specialize (Ha z Hz). lia.
      * apply Nat.leb_gt in E. injection Hsorted as <- _.
        exists (a :: before), after. split; [reflexivity|]. split; [|exact Ha].
        intros z [<-|Hz]; [exact E|]. apply Hb. exact Hz.
Qed.

Lemma filter_split {A : Type} (f : A -> bool) (l l1 l2 : list A) (x : A) :
  filter f l = l1 ++ x :: l2 ->
  exists before after,
    l = before ++ x :: after /\ f x = true /\
    filter f before = l1 /\ filter f after = l2.
Proof.
  revert l1. induction l as [|a l IH]; intros l1 H; simpl in H.
  - destruct l1; discriminate.
  - destruct (f a) eqn:Ea.
    + destruct l1 as [|b l1]; simpl in H; injection H as <- H.
      * exists [], l. simpl. auto.
      * destruct (IH l1 H) as (before & after & -> & Hx & Hb & Ha).
        exists (a :: before), after. simpl. rewrite Ea, Hb. auto.
    + destruct (IH l1 H) as (before & after & -> & Hx & Hb & Ha).
      exists (a :: before), after. simpl. rewrite Ea. auto.
Qed.

Lemma int_le_float_true (n : nat) (x : Q) :
  int_le_float n x = true <-> (inject_Z (Z.of_nat n) <= x)%Q.
Proof. apply Qle_bool_iff. Qed.

(** [decide_action] by the sorted list of playable cards. *)
Lemma decide_action_cases (self : StrategyEngine) (info : game_info) :
  let playable := fun card : detected_card =>
    int_le_float (card_cost self card) (current_elixir info) in
  let playable_cards :=
    sorted (card_cost self) (filter playable (cards_in_hand info)) in
  (playable_cards = [] /\ decide_action self info = None) \/
  (exists card rest position,
     playable_cards = card :: rest /\
     decide_action self info = Some (play_card (card_name card) position)).
Proof.
  unfold decide_action, card_cost.
  destruct (cards_in_hand info) as [|first others]; simpl.
  - left. split; reflexivity.
  - match goal with
    | |- context [match ?l with [] => None | _ => _ end] =>
        destruct l as [|card rest]
    end.
    + left. split; reflexivity.
    + right. exists card, rest. eexists. split; reflexivity.
Qed.

(** X3: [decide_action] returns no action exactly when no card in hand is
    affordable (its table cost at most the elixir reported), an empty
    hand included. Otherwise the action is to play a card of the hand:
    the cheapest affordable one, and among equally cheap ones the first
    in hand order. *)
Theorem decide_action_plays_first_cheapest (self : StrategyEngine)
    (info : game_info) :
  (decide_action self info = None <->
   forall card, In card (cards_in_hand info) -> ~ affordable self info card) /\
  (forall chosen, decide_action self info = Some chosen ->
   exists before card after position,
     cards_in_hand info = before ++ card :: after /\
     chosen = play_card (card_name card) position /\
     affordable self info card /\
     (forall other, In other before -> affordable self info other ->
        card_cost self card < card_cost self other) /\
     (forall other, In other after -> affordable self info other ->
        card_cost self card <= card_cost self other)).
Proof.
  unfold affordable.
  set (playable := fun card : detected_card =>
         int_le_float (card_cost self card) (current_elixir info)).
  assert (Hplayable : forall card,
            In card (filter playable (cards_in_hand info)) <->
            In card (cards_in_hand info) /\
            (inject_Z (Z.of_nat (card_cost self card)) <= current_elixir info)%Q).
  { intros card. rewrite filter_In. unfold playable.
    rewrite int_le_float_true. tauto. }
  destruct (decide_action_cases self info)
    as [[Hsorted Hnone]|(card & rest & position & Hsorted & Hsome)];
    fold playable in Hsorted.
  - rewrite Hnone. split; [|discriminate]. split; [|reflexivity].
    intros _ card Hin Hafford.
    assert (Hplay : In card (filter playable (cards_in_hand info)))
      by (apply Hplayable; auto).
    apply (sorted_In (card_cost self)) in Hplay.
    rewrite Hsorted in Hplay. destruct Hplay.
  - rewrite Hsome.
    destruct (sorted_head _ _ _ _ Hsorted) as (l1 & l2 & Hfilter & Hl1 & Hl2).
    destruct (filter_split _ _ _ _ _ Hfilter)
      as (before & after & Hcards & Hcard & Hbefore & Hafter).
    apply int_le_float_true in Hcard.
    split.
    + split; [discriminate|]. intros Hnone. exfalso.
      apply (Hnone card); [|exact Hcard].
      rewrite Hcards. apply in_app_iff. right. left. reflexivity.
    + intros chosen Hchosen. injection Hchosen as <-.
      exists before, card, after, position.
      split; [exact Hcards|]. split; [reflexivity|]. split; [exact Hcard|].
      split; intros other Hin Hafford.
      * apply Hl1. rewrite <- Hbefore. apply filter_In.
        split; [exact Hin|]. apply int_le_float_true. exact Hafford.
      * apply Hl2. rewrite <- Hafter. apply filter_In.
        split; [exact Hin|]. apply int_le_float_true. exact Hafford.
Qed.

Lemma int_lt_float_240 (n : nat) : int_lt_float n (720 / 3) = (n <? 240).
Proof.
  unfold int_lt_float. destruct (n <? 240) eqn:E.
  - apply Qltb_true. apply Nat.ltb_lt in E.
    unfold Qlt. simpl. lia.
  - apply Qltb_false. apply Nat.ltb_ge in E.
    unfold Qle. simpl. lia.
Qed.

Lemma int_gt_float_480 (n : nat) :
  int_gt_float n ((720 / 3) * 2) = (480 <? n).
Proof.
  unfold int_gt_float. destruct (480 <? n) eqn:E.
  - apply Qltb_true. apply Nat.ltb_lt in E.
    unfold Qlt. simpl. lia.
  - apply Qltb_false. apply Nat.ltb_ge in E.
    unfold Qle. simpl. lia.
Qed.

(** X4: the position of a returned action depends on the enemy units
    only through the first one's x coordinate. With no enemy unit it is
    the middle offensive point; otherwise the left defensive point for
    x below 240, the right one for x above 480, and the middle one for
    x from 240 to 480, both ends included. *)
Theorem decide_action_placement (self : StrategyEngine) (info : game_info)
    (name : string) (position : point) :
  decide_action self info = Some (play_card name position) ->
  match opponent_units info with
  | [] => position = middle_offensive self
  | first_enemy_unit :: _ =>
      let enemy_x := fst (unit_position first_enemy_unit) in
      (enemy_x < 240 -> position = left_lane_defensive self) /\
      (240 <= enemy_x <= 480 -> position = middle_defensive self) /\
      (480 < enemy_x -> position = right_lane_defensive self)
  end.
Proof.
  unfold decide_action, _assess_threat.
  destruct (cards_in_hand info) as [|first others]; [discriminate|].
  destruct (sorted _ _) as [|card rest]; [discriminate|].
  intros H. injection H as _ Hpos.
  destruct (opponent_units info) as [|unit units]; [congruence|].
  destruct (unit_position unit) as [enemy_x enemy_y]. simpl fst.
  rewrite int_lt_float_240, int_gt_float_480 in Hpos.
  destruct (enemy_x <? 240) eqn:E1; [apply Nat.ltb_lt in E1|apply Nat.ltb_ge in E1];
    (destruct (480 <? enemy_x) eqn:E2;
       [apply Nat.ltb_lt in E2|apply Nat.ltb_ge in E2]);
    repeat split; intros; try lia; congruence.
Qed.

(** What a returned analysis is made of. *)
Lemma analyze_battlefield_returned (self : VisionSystem) (image_np : frame)
    (info : game_info) :
  snd (analyze_battlefield self image_np) = Returned info ->
  exists processed_image cards units,
    _preprocess_image image_np = Returned processed_image /\
    detect_cards_in_hand self processed_image = Returned cards /\
    detect_opponent_units self processed_image = Returned units /\
    info = game_info_of cards units.
Proof.
  unfold analyze_battlefield. cbn [snd]. intros Hrun.
  destruct (_preprocess_image image_np) as [processed|e] eqn:Hprocessed;
    cbn [bind] in Hrun; [|discriminate].
  change (detect_cards_in_hand (set_latest_screenshot self image_np) processed)
    with (detect_cards_in_hand self processed) in Hrun.
  change (detect_opponent_units (set_latest_screenshot self image_np) processed)
    with (detect_opponent_units self processed) in Hrun.
  destruct (detect_cards_in_hand self processed) as [cards|e] eqn:Hcards;
    cbn [bind] in Hrun; [|discriminate].
  destruct (detect_opponent_units self processed) as [units|e] eqn:Hunits;
    cbn [bind] in Hrun; [|discriminate].
  injection Hrun as <-. exists processed, cards, units.
  split; [reflexivity|]. split; [exact Hcards|]. split; [exact Hunits|].
  reflexivity.
Qed.

(** Every detected card carries the key of a card template. *)
Lemma detected_card_has_template (self : VisionSystem) (processed_image : gray)
    (cards : list detected_card) (card : detected_card) :
  detect_cards_in_hand self processed_image = Returned cards ->
  In card cards ->
  exists template, In (card_name card, template) (card_templates self).
Proof.
  unfold detect_cards_in_hand.
  destruct (hand_roi self) as [[[x_start y_start] x_end] y_end].
  destruct (size _ =? 0).
  - intros H. injection H as <-. intros [].
  - intros Hrun Hin.
    apply (for_card_templates_entries _ _ _ _ _ _ Hrun) in Hin.
    destruct Hin as [[]|(name & template & x & y & Hin & _ & ->)].
    exists template. exact Hin.
Qed.

(** The costs of the cards [card_data] knows are at most 5; any other
    name costs 99. *)
Lemma card_cost_known_or_99 (self : StrategyEngine) (card : detected_card) :
  (exists properties,
     dict_get card_data (card_name card) = Some properties /\
     card_cost self card <= 5) \/
  (dict_get card_data (card_name card) = None /\ card_cost self card = 99).
Proof.
  unfold card_cost, _get_card_properties, card_data.
  generalize (card_name card) as name. intros name. cbn [dict_get].
  repeat match goal with
  | |- context [String.eqb ?k name] =>
      destruct (String.eqb k name);
        [left; eexists; split; [reflexivity|cbn; lia]|]
  end.
  right. split; reflexivity.
Qed.

(** X5: on what [analyze_battlefield] returns (its elixir entry is the
    placeholder 10.0), [decide_action] returns no action exactly when no
    detected card has a name that [card_data] knows; a card it plays has
    a name known to [card_data] and is the key of a card template. A
    detected card of any other name (cost 99) is never played. *)
Theorem decide_action_after_analysis (vision : VisionSystem)
    (strategy : StrategyEngine) (image_np : frame) (info : game_info) :
  snd (analyze_battlefield vision image_np) = Returned info ->
  (decide_action strategy info = None <->
   forall card, In card (cards_in_hand info) ->
     dict_get card_data (card_name card) = None) /\
  (forall name position,
     decide_action strategy info = Some (play_card name position) ->
     (exists properties, dict_get card_data name = Some properties) /\
     (exists template, In (name, template) (card_templates vision))).
Proof.
  intros Hrun.
  destruct (analyze_battlefield_returned _ _ _ Hrun)
    as (processed & cards & units & _ & Hcards & _ & ->).
  cbn [cards_in_hand game_info_of].
  set (info := game_info_of cards units).
  assert (Hplayable : forall card,
            int_le_float (card_cost strategy card) (current_elixir info) = true
            <-> exists properties,
                  dict_get card_data (card_name card) = Some properties).
  { intros card. rewrite int_le_float_true.
    change (current_elixir info) with 10.0%Q.
    destruct (card_cost_known_or_99 strategy card)
      as [(properties & Hget & Hcost)|[Hget Hcost]]; rewrite Hget.
    - split; [eauto|]. intros _. unfold Qle. simpl. lia.
    - rewrite Hcost. split; [|intros [? H]; discriminate H].
      unfold Qle. simpl. lia. }
  destruct (decide_action_cases strategy info)
    as [[Hsorted Hnone]|(card & rest & position & Hsorted & Hsome)];
    cbn [cards_in_hand info game_info_of] in Hsorted.
  - rewrite Hnone. split; [|discriminate]. split; [|reflexivity].
    intros _ card Hin.
    destruct (dict_get card_data (card_name card)) as [properties|] eqn:Hget;
      [|reflexivity].
    exfalso.
    assert (Hplay : In card (sorted (card_cost strategy)
              (filter (fun card => int_le_float (card_cost strategy card)
                                     (current_elixir info)) cards))).
    { apply sorted_In, filter_In. split; [exact Hin|].
      apply Hplayable. rewrite Hget. eauto. }
    rewrite Hsorted in Hplay. destruct Hplay.
  - assert (Hcard : In card (sorted (card_cost strategy)
              (filter (fun card => int_le_float (card_cost strategy card)
                                     (current_elixir info)) cards)))
      by (rewrite Hsorted; left; reflexivity).
    apply sorted_In, filter_In in Hcard. destruct Hcard as [Hin Hplay].
    apply Hplayable in Hplay. rewrite Hsome. split.
    + split; [discriminate|]. intros Hall. exfalso.
      destruct Hplay as [properties Hget].
      rewrite (Hall card Hin) in Hget. discriminate.
    + intros name position' Hchosen. injection Hchosen as <- _.
      split; [exact Hplay|].
      exact (detected_card_has_template vision processed cards card Hcards Hin).
Qed.

(** ** Template loading *)










Lemma dict_get_set_same {V : Type} (d : dict V) (key : string) (value : V) :
  dict_get (dict_set d key value) key = Some value.
Proof.
  induction d as [|[k v] rest IH]; cbn [dict_set dict_get].
  - rewrite String.eqb_refl. reflexivity.
  - destruct (String.eqb k key) eqn:E; cbn [dict_get]; rewrite E.
    + reflexivity.
    + exact IH.
Qed.

Lemma dict_get_set_other {V : Type} (d : dict V) (key other : string)
    (value : V) :
  key <> other ->
  dict_get (dict_set d key value) other = dict_get d other.
Proof.
  intros Hneq. induction d as [|[k v] rest IH]; cbn [dict_set dict_get].
  - destruct (String.eqb key other) eqn:E; [|reflexivity].
    apply String.eqb_eq in E. contradiction.
  - destruct (String.eqb k key) eqn:E; cbn [dict_get].
    + apply String.eqb_eq in E. subst k.
      destruct (String.eqb key other) eqn:E'; [|reflexivity].
      apply String.eqb_eq in E'. contradiction.
    + rewrite IH. reflexivity.
Qed.

Lemma dict_set_keys {V : Type} (d : dict V) (key name : string) (value : V) :
  In name (map fst (dict_set d key value)) <->
  name = key \/ In name (map fst d).
Proof.
  induction d as [|[k v] rest IH]; cbn [dict_set].
  - cbn [map fst In]. split; intros [H|[]]; left; symmetry; exact H.
  - destruct (String.eqb k key) eqn:E.
    + apply String.eqb_eq in E. subst k. cbn [map fst In]. split.
      * intros [H|H]; [left; symmetry; exact H|right; right; exact H].
      * intros [H|[H|H]];
          [left; symmetry; exact H|left; exact H|right; exact H].
    + cbn [map fst In]. rewrite IH. split.
      * intros [H|[H|H]];
          [right; left; exact H|left; exact H|right; right; exact H].
      * intros [H|[H|H]];
          [right; left; exact H|left; exact H|right; right; exact H].
Qed.


Lemma dict_get_In {V : Type} (d : dict V) (key : string) (value : V) :
  dict_get d key = Some value -> In (key, value) d.
Proof.
  induction d as [|[k v] rest IH]; cbn [dict_get]; [discriminate|].
  destruct (String.eqb k key) eqn:E; intros H.
  - apply String.eqb_eq in E. injection H as ->. subst k. left. reflexivity.
  - right. exact (IH H).
Qed.


Lemma dict_get_keys {V : Type} (d : dict V) (key : string) :
  dict_get d key = None <-> ~ In key (map fst d).
Proof.
  induction d as [|[k v] rest IH]; cbn [dict_get map fst In].
  - split; [intros _ []|reflexivity].
  - destruct (String.eqb k key) eqn:E.
    + apply String.eqb_eq in E. split; [discriminate|]. intros H. exfalso.
      apply H. left. exact E.
    + rewrite IH. apply String.eqb_neq in E. split.
      * intros H [H'|H']; [exact (E H')|exact (H H')].
      * intros H H'. apply H. right. exact H'.
Qed.


Lemma for_listed_files_keys (listing : list (string * option gray))
    (templates : dict gray) (name : string) :
  In name (map fst (for_listed_files templates listing)) ->
  In name (map fst templates) \/
  exists entry, In entry listing /\ stored_under name entry.
Proof.
  revert templates.
  induction listing as [|[filename imread] rest IH]; intros templates;
    cbn [for_listed_files]; [left; assumption|].
  assert (Hrest : In name (map fst (for_listed_files templates rest)) ->
          In name (map fst templates) \/
          exists entry, In entry ((filename, imread) :: rest) /\
                        stored_under name entry).
  { intros H. destruct (IH _ H) as [H'|(entry & Hin & Hst)]; [left; exact H'|].
    right. exists entry. split; [right; exact Hin|exact Hst]. }
  destruct (has_image_extension filename) eqn:Hext; [|exact Hrest].
  destruct imread as [template|]; [|exact Hrest].
  intros H. destruct (IH _ H) as [H'|(entry & Hin & Hst)].
  - apply dict_set_keys in H'. destruct H' as [->|H']; [|left; exact H'].
    right. exists (filename, Some template). split; [left; reflexivity|].
    split; [exact Hext|]. split; [reflexivity|]. discriminate.
  - right. exists entry. split; [right; exact Hin|exact Hst].
Qed.

Lemma for_listed_files_skips (listing : list (string * option gray))
    (templates : dict gray) (name : string) :
  (forall entry, In entry listing -> ~ stored_under name entry) ->
  dict_get (for_listed_files templates listing) name = dict_get templates name.
Proof.
  revert templates.
  induction listing as [|[filename imread] rest IH]; intros templates Hnone;
    cbn [for_listed_files]; [reflexivity|].
  assert (Hrest : forall entry, In entry rest -> ~ stored_under name entry)
    by (intros entry Hin; apply Hnone; right; exact Hin).
  destruct (has_image_extension filename) eqn:Hext; [|exact (IH _ Hrest)].
  destruct imread as [template|]; [|exact (IH _ Hrest)].
  rewrite (IH _ Hrest). apply dict_get_set_other. intros Heq.
  apply (Hnone (filename, Some template)); [left; reflexivity|].
  split; [exact Hext|]. split; [exact Heq|]. discriminate.
Qed.

(** X6: what the loop of [_load_card_templates] and
    [_load_enemy_unit_templates] leaves under a name. If the listing holds
    an image file whose name normalises to [name] and which [cv2.imread]
    decodes, the last such file of the listing provides the template;
    files of other extensions, files that cannot be decoded and files
    that normalise to another name play no part. If it holds none, the
    entry is what the dictionary held before. *)
Theorem for_listed_files_last_file_wins
    (listing : list (string * option gray)) (templates : dict gray)
    (name : string) :
  (forall before filename template after,
     listing = before ++ (filename, Some template) :: after ->
     stored_under name (filename, Some template) ->
     (forall entry, In entry after -> ~ stored_under name entry) ->
     dict_get (for_listed_files templates listing) name = Some template) /\
  ((forall entry, In entry listing -> ~ stored_under name entry) ->
   dict_get (for_listed_files templates listing) name
   = dict_get templates name).
Proof.
  split; [|apply for_listed_files_skips].
  intros before filename template after -> (Hext & Hname & _) Hafter.
  cbn [fst] in Hext, Hname. revert templates.
  induction before as [|[filename' imread'] before IH]; intros templates.
  - cbn [app for_listed_files]. rewrite Hext, Hname.
    rewrite (for_listed_files_skips _ _ _ Hafter).
    apply dict_get_set_same.
  - cbn [app for_listed_files].
    destruct (has_image_extension filename'); [|apply IH].
    destruct imread'; apply IH.
Qed.

Lemma for_expected_ui_elements_lookup (listing : list (string * option gray))
    (items : list (string * string)) (templates : dict gray) (name : string) :
  NoDup (map fst items) ->
  dict_get (for_expected_ui_elements templates listing items) name =
    match dict_get items name with
    | Some filename =>
        match dict_get listing filename with
        | Some (Some template) => Some template
        | _ => dict_get templates name
        end
    | None => dict_get templates name
    end.
Proof.
  revert templates.
  induction items as [|[ui_element_name filename] rest IH];
    intros templates Hnd; [reflexivity|].
  cbn [map fst] in Hnd. inversion Hnd as [|? ? Hnotin Hrest]; subst.
  cbn [for_expected_ui_elements dict_get].
  destruct (String.eqb ui_element_name name) eqn:E.
  - apply String.eqb_eq in E. subst ui_element_name.
    apply dict_get_keys in Hnotin.
    destruct (dict_get listing filename) as [[template|]|];
      rewrite (IH _ Hrest), Hnotin; [apply dict_get_set_same| |]; reflexivity.
  - apply String.eqb_neq in E.
    destruct (dict_get listing filename) as [[template|]|];
      rewrite (IH _ Hrest); [|reflexivity|reflexivity].
    rewrite (dict_get_set_other _ _ _ _ E). reflexivity.
Qed.

(** The dictionaries of a new [VisionSystem]. *)
Lemma VisionSystem_new_card_templates
    (cards_dir ui_elements_dir enemy_units_dir : directory) :
  card_templates (VisionSystem_new cards_dir ui_elements_dir enemy_units_dir)
  = match cards_dir with
    | Some listing => for_listed_files [] listing
    | None => []
    end.
Proof.
  destruct cards_dir, ui_elements_dir, enemy_units_dir; reflexivity.
Qed.

Lemma VisionSystem_new_ui_templates
    (cards_dir ui_elements_dir enemy_units_dir : directory) :
  ui_templates (VisionSystem_new cards_dir ui_elements_dir enemy_units_dir)
  = match ui_elements_dir with
    | Some listing =>
        for_expected_ui_elements [] listing expected_ui_elements
    | None => []
    end.
Proof.
  destruct cards_dir, ui_elements_dir, enemy_units_dir; reflexivity.
Qed.

Lemma VisionSystem_new_enemy_unit_templates
    (cards_dir ui_elements_dir enemy_units_dir : directory) :
  enemy_unit_templates
    (VisionSystem_new cards_dir ui_elements_dir enemy_units_dir)
  = match enemy_units_dir with
    | Some listing => for_listed_files [] listing
    | None => []
    end.
Proof.
  destruct cards_dir, ui_elements_dir, enemy_units_dir; reflexivity.
Qed.


(** X7: the UI dictionary of a new [VisionSystem]. Under each of the five
    expected element names it holds the image of the file expected for it,
    when the directory has that file and [cv2.imread] decodes it; it holds
    nothing else, whatever other files the directory lists, and nothing
    at all when the directory is missing. *)
Theorem VisionSystem_new_ui_lookup
    (cards_dir ui_elements_dir enemy_units_dir : directory) (name : string) :
  dict_get
    (ui_templates (VisionSystem_new cards_dir ui_elements_dir enemy_units_dir))
    name
  = match ui_elements_dir, dict_get expected_ui_elements name with
    | Some listing, Some filename =>
        match dict_get listing filename with
        | Some (Some template) => Some template
        | _ => None
        end
    | _, _ => None
    end.
Proof.
  rewrite VisionSystem_new_ui_templates.
  destruct ui_elements_dir as [listing|].
  - rewrite for_expected_ui_elements_lookup.
    + destruct (dict_get expected_ui_elements name) as [filename|];
        [|reflexivity].
      destruct (dict_get listing filename) as [[template|]|]; reflexivity.
    + unfold expected_ui_elements. cbn [map fst].
      repeat (constructor; [cbn [In]; intros H;
        repeat (destruct H as [H|H]; [discriminate H|]); exact H|]).
      constructor.
  - destruct (dict_get expected_ui_elements name); reflexivity.
Qed.


(** X9: a [VisionSystem] whose UI directory is missing, or holds none of
    the four files the classifier's rules need in decodable form, takes
    every frame for a battle: [get_current_game_state] returns [IN_BATTLE]
    whenever preprocessing returns. *)
Theorem classify_without_ui_templates (self : VisionSystem)
    (cards_dir ui_elements_dir enemy_units_dir : directory)
    (image_np : frame) (processed_screen : gray) :
  ui_templates self
    = ui_templates
        (VisionSystem_new cards_dir ui_elements_dir enemy_units_dir) ->
  (forall listing filename template,
     ui_elements_dir = Some listing ->
     In filename ["battle_indicator.png"; "play_button.png";
                  "ok_button.png"; "home_button.png"] ->
     dict_get listing filename <> Some (Some template)) ->
  _preprocess_image image_np = Returned processed_screen ->
  snd (get_current_game_state self image_np) = Returned IN_BATTLE.
Proof.
  intros Hloaded Hfiles Hpre.
  assert (Hmiss : forall name filename,
            dict_get expected_ui_elements name = Some filename ->
            In filename ["battle_indicator.png"; "play_button.png";
                         "ok_button.png"; "home_button.png"] ->
            rule_misses self processed_screen name).
  { intros name filename Hname Hin. left.
    rewrite Hloaded, VisionSystem_new_ui_lookup, Hname.
    destruct ui_elements_dir as [listing|]; [|reflexivity].
    specialize (Hfiles listing filename).
    destruct (dict_get listing filename) as [[template|]|]; [|reflexivity..].
    exfalso. exact (Hfiles template eq_refl Hin eq_refl). }
  rewrite (get_current_game_state_processed self image_np processed_screen Hpre).
  assert (H1 := Hmiss "Battle Indicator" _ eq_refl (or_introl eq_refl)).
  assert (H2 := Hmiss "Play Button" _ eq_refl (or_intror (or_introl eq_refl))).
  assert (H3 := Hmiss "OK Button" _ eq_refl
                  (or_intror (or_intror (or_introl eq_refl)))).
  assert (H4 := Hmiss "Home Button" _ eq_refl
                  (or_intror (or_intror (or_intror (or_introl eq_refl))))).
  repeat rule_step. reflexivity.
Qed.

(** X10: a [VisionSystem] whose card directory is missing, or holds no
    decodable image file, never reports a card, and [decide_action] then
    takes no action on what [analyze_battlefield] returns. *)
Theorem no_card_templates_no_action (self : VisionSystem)
    (strategy : StrategyEngine)
    (cards_dir ui_elements_dir enemy_units_dir : directory)
    (image_np : frame) (info : game_info) :
  card_templates self
    = card_templates
        (VisionSystem_new cards_dir ui_elements_dir enemy_units_dir) ->
  (forall listing filename template,
     cards_dir = Some listing ->
     In (filename, Some template) listing ->
     has_image_extension filename = false) ->
  snd (analyze_battlefield self image_np) = Returned info ->
  cards_in_hand info = [] /\ decide_action strategy info = None.
Proof.
  intros Hloaded Hfiles Hrun.
  assert (Hempty : card_templates self = []).
  { rewrite Hloaded, VisionSystem_new_card_templates.
    destruct cards_dir as [listing|]; [|reflexivity].
    specialize (Hfiles listing).
    destruct (for_listed_files [] listing) as [|[name template] rest] eqn:E;
      [reflexivity|]. exfalso.
    assert (Hin : In name (map fst (for_listed_files [] listing)))
      by (rewrite E; left; reflexivity).
    apply for_listed_files_keys in Hin.
    destruct Hin as [[]|([filename imread] & Hin & Hext & _ & Hread)].
    cbn [fst snd] in Hext, Hread.
    destruct imread as [image|]; [|contradiction].
    rewrite (Hfiles filename image eq_refl Hin) in Hext. discriminate. }
  destruct (analyze_battlefield_returned _ _ _ Hrun)
    as (processed & cards & units & _ & Hcards & _ & ->).
  assert (Hnone : cards = []).
  { destruct cards as [|card rest]; [reflexivity|]. exfalso.
    destruct (detected_card_has_template _ _ _ card Hcards
                (or_introl eq_refl)) as [template Hin].
    rewrite Hempty in Hin. destruct Hin. }
  subst cards. split; reflexivity.
Qed.

(** ** From detection to location *)





(** ** The emulator and the bot loop *)

Lemma io_bind_run {S A B : Type} (m : io S A) (k : A -> io S B) (s s' : S)
    (r : result B) :
  io_bind m k s = (s', r) ->
  (exists s1 a, m s = (s1, Ok a) /\ k a s1 = (s', r)) \/
  (exists e, m s = (s', Raise e) /\ r = Raise e).
Proof.
  unfold io_bind. destruct (m s) as [s1 [a|e]]; intros H.
  - left. exists s1, a. split; [reflexivity|exact H].
  - right. injection H as <- <-. exists e. split; reflexivity.
Qed.

(** [get_screen] always returns: it runs the screenshot command and
    gives [captured_frame]. *)
Lemma get_screen_run (self : ADBEmulatorInterface) (e : environment world) :
  get_screen self e =
    ({| outside := fst (subprocess_run (adb_prefix self ++ screencap_command)
                          true false (outside e));
        commands := commands e ++ [adb_prefix self ++ screencap_command] |},
     Ok (captured_frame self e)).
Proof.
  unfold get_screen, captured_frame, try_except, io_bind, _run_adb_command,
    screencap_command.
  destruct (subprocess_run _ true false (outside e)) as [w [data|exc]];
    cbn [fst snd]; [|reflexivity].
  destruct (Image_open_array data); reflexivity.
Qed.

Lemma on_interface_get_screen (s : machine world) :
  on_interface get_screen s =
    ({| env :=
          {| outside :=
               fst (subprocess_run
                      (adb_prefix (interface_object (objects s))
                         ++ screencap_command)
                      true false (outside (env s)));
             commands :=
               commands (env s) ++
               [adb_prefix (interface_object (objects s))
                  ++ screencap_command] |};
        objects := objects s |},
     Ok (captured_frame (interface_object (objects s)) (env s))).
Proof.
  unfold on_interface, on_environment. rewrite get_screen_run. reflexivity.
Qed.

Lemma on_vision_run {A : Type}
    (method : VisionSystem -> VisionSystem * outcome A) (s : machine world) :
  on_vision method s =
    ({| env := env s;
        objects :=
          {| vision_object := fst (method (vision_object (objects s)));
             interface_object := interface_object (objects s) |} |},
     match snd (method (vision_object (objects s))) with
     | Returned a => Ok a
     | Raised e => Raise (OpenCV e)
     end).
Proof.
  unfold on_vision, of_outcome.
  destruct (method (vision_object (objects s))); reflexivity.
Qed.

(** [sleep] leaves the commands as they are. *)
Lemma sleep_run (seconds : Q) (e e' : environment world) (r : result unit) :
  sleep seconds e = (e', r) -> commands e' = commands e.
Proof.
  unfold sleep. destruct (Qltb seconds 0); intros H; injection H as <- _;
    reflexivity.
Qed.

(** What [perform_action] sends to the device: nothing, or the swipe from
    where the card was located to the position of the action. *)
Lemma perform_action_run (self : Emulator) (a : action) (s s' : machine world)
    (r : result unit) :
  perform_action self a s = (s', r) ->
  objects s' = objects s /\
  (commands (env s') = commands (env s) \/
   exists name start position,
     a = play_card name position /\
     get_card_location (interface_object (objects s))
       (vision_object (objects s)) name = Returned (Some start) /\
     commands (env s') =
       commands (env s) ++
       [adb_prefix (interface_object (objects s))
          ++ swipe_command start position]).
Proof.
  destruct a as [name position|duration| |action_type]; cbn [perform_action].
  - unfold simulate_click_and_drag, io_bind, of_outcome.
    destruct (get_card_location _ _ name) as [[start|]|e] eqn:Hlocate.
    + unfold on_interface, on_environment, _run_adb_command.
      destruct (subprocess_run _ false false _) as [w [stdout|exc]];
        intros H; injection H as <- _; (split; [reflexivity|]);
        right; exists name, start, position; repeat split; assumption.
    + intros H. injection H as <- _. split; [reflexivity|left; reflexivity].
    + intros H. injection H as <- _. split; [reflexivity|left; reflexivity].
  - unfold on_interface, on_environment, ADBEmulatorInterface_wait.
    destruct (sleep _ (env s)) as [e' r'] eqn:Hsleep.
    intros H. injection H as <- _. split; [reflexivity|].
    left. exact (sleep_run _ _ _ _ Hsleep).
  - intros H. injection H as <- _. split; [reflexivity|left; reflexivity].
  - intros H. injection H as <- _. split; [reflexivity|left; reflexivity].
Qed.

(** The position of a card [decide_action] plays is one of four. *)
Lemma decide_action_position (self : StrategyEngine) (info : game_info)
    (name : string) (position : point) :
  decide_action self info = Some (play_card name position) ->
  In position (placement_positions self).
Proof.
  unfold decide_action, _assess_threat, placement_positions.
  destruct (cards_in_hand info) as [|first others]; [discriminate|].
  destruct (sorted _ _) as [|card rest]; [discriminate|].
  intros H. injection H as _ <-.
  destruct (opponent_units info) as [|unit units].
  - right. right. right. left. reflexivity.
  - destruct (unit_position unit) as [enemy_x enemy_y].
    destruct (int_lt_float enemy_x (720 / 3)); [left; reflexivity|].
    destruct (int_gt_float enemy_x (720 / 3 * 2)).
    + right. left. reflexivity.
    + right. right. left. reflexivity.
Qed.

(** One call of [_handle_battle_state]: a screenshot is taken and
    analysed; a swipe follows when the strategy plays a card and the card
    is located on that screenshot. *)
Lemma handle_battle_state_run (self : BotLoop) (s s' : machine world)
    (r : result BotLoop) :
  _handle_battle_state self s = (s', r) ->
  let interface := interface_object (objects s) in
  let screen_image := captured_frame interface (env s) in
  let capture := adb_prefix interface ++ screencap_command in
  interface_object (objects s') = interface /\
  vision_object (objects s')
    = set_latest_screenshot (vision_object (objects s)) screen_image /\
  (forall self', r = Ok self' ->
     running self' = running self /\
     strategy self' = strategy self /\
     (current_state self' = current_state self \/
      current_state self' = POST_GAME)) /\
  (commands (env s') = commands (env s) ++ [capture] \/
   exists info name start position,
     snd (analyze_battlefield (vision_object (objects s)) screen_image)
       = Returned info /\
     decide_action (strategy self) info = Some (play_card name position) /\
     get_card_location interface (vision_object (objects s')) name
       = Returned (Some start) /\
     commands (env s') =
       commands (env s) ++
       [capture; adb_prefix interface ++ swipe_command start position]).
Proof.
  cbn zeta. unfold _handle_battle_state. intros Hrun.
  apply io_bind_run in Hrun. rewrite on_interface_get_screen in Hrun.
  destruct Hrun as [(s1 & screen & H1 & Hrun)|(e & H1 & _)];
    [|discriminate H1].
  injection H1 as <- <-.
  apply io_bind_run in Hrun. rewrite on_vision_run in Hrun.
  cbn [env objects vision_object interface_object] in Hrun.
  change (fst (analyze_battlefield (vision_object (objects s))
                 (captured_frame (interface_object (objects s)) (env s))))
    with (set_latest_screenshot (vision_object (objects s))
            (captured_frame (interface_object (objects s)) (env s))) in Hrun.
  destruct Hrun as [(s2 & info & H2 & Hrun)|(e & H2 & ->)].
  - destruct (snd (analyze_battlefield _ _)) as [info'|e] eqn:Hinfo;
      [|discriminate H2].
    injection H2 as <- <-.
    apply io_bind_run in Hrun.
    destruct Hrun as [(s3 & [] & H3 & Hrun)|(e & H3 & ->)].
    + (* the action, if any, was performed *)
      assert (Hlast : objects s' = objects s3 /\
                      commands (env s') = commands (env s3) /\
                      forall self', r = Ok self' ->
                        running self' = running self /\
                        strategy self' = strategy self /\
                        (current_state self' = current_state self \/
                         current_state self' = POST_GAME)).
      { apply io_bind_run in Hrun. unfold on_environment in Hrun.
        destruct (random_rand (outside (env s3))) as [w chance].
        destruct Hrun as [(s4 & x & H4 & Hrun)|(e & H4 & _)];
          [|discriminate H4].
        injection H4 as <- <-.
        destruct (Qltb chance 0.1); injection Hrun as <- <-;
          (split; [reflexivity|]); (split; [reflexivity|]);
          intros self' Hself; injection Hself as <-;
          (split; [reflexivity|]); (split; [reflexivity|]);
          [right|left]; reflexivity. }
      destruct Hlast as (Hobjects & Hcommands & Hself).
      destruct (decide_action (strategy self) info') as [a|] eqn:Hdecide.
      * apply perform_action_run in H3. destruct H3 as [Hobj3 Hcmd3].
        cbn [env objects vision_object interface_object commands] in Hobj3, Hcmd3.
        rewrite Hobjects, Hobj3, Hcommands.
        cbn [vision_object interface_object].
        split; [reflexivity|]. split; [reflexivity|]. split; [exact Hself|].
        destruct Hcmd3 as [->|(name & start & position & -> & Hlocate & ->)].
        -- left. reflexivity.
        -- right. exists info', name, start, position.
           split; [reflexivity|]. split; [exact Hdecide|].
           split; [exact Hlocate|]. rewrite <- app_assoc. reflexivity.
      * injection H3 as <-. rewrite Hobjects, Hcommands.
        cbn [env objects vision_object interface_object commands].
        split; [reflexivity|]. split; [reflexivity|]. split; [exact Hself|].
        left. reflexivity.
    + (* performing the action raised *)
      destruct (decide_action (strategy self) info') as [a|] eqn:Hdecide;
        [|discriminate H3].
      apply perform_action_run in H3. destruct H3 as [Hobj3 Hcmd3].
      cbn [env objects vision_object interface_object commands] in Hobj3, Hcmd3.
      rewrite Hobj3. cbn [vision_object interface_object].
      split; [reflexivity|]. split; [reflexivity|].
      split; [intros self' Hself; discriminate Hself|].
      destruct Hcmd3 as [->|(name & start & position & -> & Hlocate & ->)].
      * left. reflexivity.
      * right. exists info', name, start, position.
        split; [reflexivity|]. split; [exact Hdecide|].
        split; [exact Hlocate|]. rewrite <- app_assoc. reflexivity.
  - (* the analysis raised *)
    destruct (snd (analyze_battlefield _ _)) as [info'|e'] eqn:Hinfo;
      [discriminate H2|].
    injection H2 as <- _.
    cbn [env objects vision_object interface_object commands].
    split; [reflexivity|]. split; [reflexivity|].
    split; [intros self' Hself; discriminate Hself|].
    left. reflexivity.
Qed.

(** A phase returned by the classifier is one of three. *)
Lemma get_current_game_state_phase (self : VisionSystem) (image_np : frame)
    (state : GameState) :
  snd (get_current_game_state self image_np) = Returned state ->
  state = IN_BATTLE \/ state = ON_MENU \/ state = POST_GAME.
Proof.
  unfold get_current_game_state. cbn [snd].
  destruct (_preprocess_image image_np) as [processed_screen|e];
    cbn [bind]; [|discriminate].
  repeat match goal with
  | |- context [bind (ui_element_detected ?a ?b ?c) _] =>
      destruct (ui_element_detected a b c) as [[|]|?]; cbn [bind]
  end;
  intros H; try discriminate H; injection H as <-; auto.
Qed.

(** The steps of one iteration of the loop of [run]: a screenshot is
    taken and classified; unless the phase is in battle, nothing more is
    sent to the device. *)
Lemma run_iteration_steps (self : BotLoop) (s s' : machine world)
    (r : result BotLoop) :
  run_iteration self s = (s', r) ->
  let interface := interface_object (objects s) in
  let screen_image := captured_frame interface (env s) in
  let capture := adb_prefix interface ++ screencap_command in
  let classified :=
    snd (get_current_game_state (vision_object (objects s)) screen_image) in
  let s1 :=
    {| env :=
         {| outside := fst (subprocess_run capture true false
                              (outside (env s)));
            commands := commands (env s) ++ [capture] |};
       objects :=
         {| vision_object :=
              set_latest_screenshot (vision_object (objects s)) screen_image;
            interface_object := interface |} |} in
  (exists e, classified = Raised e /\ s' = s1 /\ r = Raise (OpenCV e)) \/
  (exists state,
     classified = Returned state /\ state <> IN_BATTLE /\
     objects s' = objects s1 /\ commands (env s') = commands (env s1) /\
     r = Ok (set_current_state self ON_MENU)) \/
  (classified = Returned IN_BATTLE /\
   exists s2 r2,
     _handle_battle_state (set_current_state self IN_BATTLE) s1 = (s2, r2) /\
     objects s' = objects s2 /\ commands (env s') = commands (env s2) /\
     r = r2).
Proof.
  cbn zeta. unfold run_iteration. intros Hrun.
  apply io_bind_run in Hrun. rewrite on_interface_get_screen in Hrun.
  destruct Hrun as [(s1 & screen & H1 & Hrun)|(e & H1 & _)];
    [|discriminate H1].
  injection H1 as <- <-.
  apply io_bind_run in Hrun. rewrite on_vision_run in Hrun.
  cbn [env objects vision_object interface_object] in Hrun.
  change (fst (get_current_game_state (vision_object (objects s))
                 (captured_frame (interface_object (objects s)) (env s))))
    with (set_latest_screenshot (vision_object (objects s))
            (captured_frame (interface_object (objects s)) (env s))) in Hrun.
  destruct (snd (get_current_game_state _ _)) as [state|e] eqn:Hstate.
  - destruct Hrun as [(s2 & state' & H2 & Hrun)|(e & H2 & _)];
      [|discriminate H2].
    injection H2 as <- <-.
    assert (Hsleep : forall (m : io (machine world) BotLoop) t (x : result BotLoop),
              m t = (fst (m t), x) ->
              (self0 <~ m ;; _ <~ on_environment (sleep 1) ;; ret self0) t
                = (s', r) ->
              objects s' = objects (fst (m t)) /\
              commands (env s') = commands (env (fst (m t))) /\ r = x).
    { intros m t x Hm. unfold io_bind. rewrite Hm.
      destruct x as [self0|e].
      - unfold on_environment, sleep.
        change (Qltb 1 0) with false. cbv beta iota zeta.
        intros H. injection H as <- <-. repeat split.
      - intros H. injection H as <- <-. repeat split. }
    destruct (get_current_game_state_phase _ _ _ Hstate) as [-> | [-> | ->]];
      cbn [current_state set_current_state] in Hrun.
    + right. right. split; [reflexivity|].
      destruct (_handle_battle_state (set_current_state self IN_BATTLE) _)
        as [s2 r2] eqn:Hbattle.
      exists s2, r2. split; [reflexivity|].
      apply (Hsleep _ _ r2) in Hrun; [|rewrite Hbattle; reflexivity].
      rewrite Hbattle in Hrun. exact Hrun.
    + right. left. exists ON_MENU. split; [reflexivity|].
      split; [discriminate|].
      apply (Hsleep (_handle_menu_state _) _
               (Ok (set_current_state self ON_MENU))) in Hrun;
        [|reflexivity].
      exact Hrun.
    + right. left. exists POST_GAME. split; [reflexivity|].
      split; [discriminate|].
      apply (Hsleep (_handle_post_game_state _) _
               (Ok (set_current_state self ON_MENU))) in Hrun;
        [|reflexivity].
      exact Hrun.
  - left. exists e.
    destruct Hrun as [(s2 & state' & H2 & _)|(e' & H2 & ->)];
      [discriminate H2|].
    injection H2 as <- <-. repeat split.
Qed.

(** An iteration that returns leaves [running] as it was, and the state
    recorded is never [INITIALIZING] or [STOPPED]. *)
Lemma run_iteration_keeps_running (self self' : BotLoop) (s s' : machine world) :
  run_iteration self s = (s', Ok self') ->
  running self' = running self /\
  (current_state self' = ON_MENU \/ current_state self' = IN_BATTLE \/
   current_state self' = POST_GAME).
Proof.
  intros Hrun. apply run_iteration_steps in Hrun. cbn zeta in Hrun.
  destruct Hrun as [(e & _ & _ & H)|[(state & _ & _ & _ & _ & H)|
                    (_ & s2 & r2 & Hbattle & _ & _ & H)]].
  - discriminate H.
  - injection H as ->. split; [reflexivity|left; reflexivity].
  - subst r2. apply handle_battle_state_run in Hbattle.
    destruct Hbattle as (_ & _ & Hself & _).
    destruct (Hself self' eq_refl) as [Hrunning [_ [Hstate|Hstate]]].
    + split; [exact Hrunning|]. right. left. exact Hstate.
    + split; [exact Hrunning|]. right. right. exact Hstate.
Qed.

(** X11: [start] never returns: however many iterations the loop is given,
    it is either still going or has ended by an exception. No iteration
    clears [running], because [get_current_game_state] never returns
    [STOPPED], the only state whose branch does. *)
Theorem start_returns_only_by_raising (fuel : nat) (self : BotLoop)
    (s : machine world) :
  snd (start fuel self s) = Ok None \/
  exists e, snd (start fuel self s) = Raise e.
Proof.
  unfold start.
  assert (Hrunning : running (set_running self true) = true) by reflexivity.
  generalize dependent (set_running self true). clear self.
  revert s. induction fuel as [|fuel IH]; intros s self Hrunning;
    cbn [run]; rewrite Hrunning.
  - left. reflexivity.
  - unfold io_bind.
    destruct (run_iteration self s) as [s' [self'|e]] eqn:Hiteration.
    + apply IH.
      destruct (run_iteration_keeps_running _ _ _ _ Hiteration) as [-> _].
      exact Hrunning.
    + right. exists e. reflexivity.
Qed.

(** X12: what one iteration of the loop sends to the device. The first
    command is a screenshot. Unless that frame is classified as in
    battle, nothing follows; when it is, a second screenshot follows, and
    after it at most one swipe. The swipe goes from where
    [get_card_coordinates] locates the card on the second screenshot to
    one of the four placement positions of the strategy. Nothing else is
    run: there is no tap, whatever the phase. *)
Theorem run_iteration_commands (self : BotLoop) (s s' : machine world)
    (r : result BotLoop) :
  run_iteration self s = (s', r) ->
  let interface := interface_object (objects s) in
  let capture := adb_prefix interface ++ screencap_command in
  let classified :=
    snd (get_current_game_state (vision_object (objects s))
           (captured_frame interface (env s))) in
  exists tail,
    commands (env s') = commands (env s) ++ capture :: tail /\
    ((tail = [] /\ classified <> Returned IN_BATTLE) \/
     (classified = Returned IN_BATTLE /\
      (tail = [capture] \/
       exists name start position,
         tail = [capture; adb_prefix interface ++ swipe_command start position]
         /\ In position (placement_positions (strategy self))
         /\ get_card_coordinates (vision_object (objects s')) name
            = Returned (Some start)))).
Proof.
  intros Hrun. apply run_iteration_steps in Hrun. cbn zeta in *.
  destruct Hrun as [(e & Hstate & -> & _)|
                    [(state & Hstate & Hother & _ & Hcommands & _)|
                     (Hstate & s2 & r2 & Hbattle & Hobjects & Hcommands & _)]].
  - exists []. split; [reflexivity|]. left. split; [reflexivity|].
    rewrite Hstate. discriminate.
  - exists []. split; [exact Hcommands|]. left. split; [reflexivity|].
    rewrite Hstate. intros H. injection H as ->. apply Hother. reflexivity.
  - apply handle_battle_state_run in Hbattle.
    cbn [env objects vision_object interface_object commands
         strategy set_current_state] in Hbattle.
    destruct Hbattle as (Hinterface & Hvision & _ & Htail).
    rewrite Hcommands.
    destruct Htail as [->|(info & name & start & position & _ & Hdecide &
                           Hlocate & ->)].
    + exists [adb_prefix (interface_object (objects s)) ++ screencap_command].
      split; [rewrite <- app_assoc; reflexivity|].
      right. split; [exact Hstate|left; reflexivity].
    + exists [adb_prefix (interface_object (objects s)) ++ screencap_command;
              adb_prefix (interface_object (objects s))
                ++ swipe_command start position].
      split; [rewrite <- app_assoc; reflexivity|].
      right. split; [exact Hstate|]. right.
      exists name, start, position. split; [reflexivity|].
      split; [exact (decide_action_position _ _ _ _ Hdecide)|].
      rewrite Hobjects. unfold get_card_location in Hlocate.
      destruct (vision_system (interface_object (objects s)));
        [exact Hlocate|discriminate Hlocate].
Qed.

(** A frame that does not reach below the top of the hand region shows
    no card, when preprocessing keeps the height of a frame. *)
Lemma short_frame_no_cards (self : VisionSystem) (image_np : frame)
    (info : game_info) :
  (forall f g, _preprocess_image f = Returned g -> shape0 g = shape0 f) ->
  shape0 image_np <= roi_1 (hand_roi self) ->
  snd (analyze_battlefield self image_np) = Returned info ->
  cards_in_hand info = [].
Proof.
  intros Hshape Hshort Hrun.
  destruct (analyze_battlefield_returned _ _ _ Hrun)
    as (processed & cards & units & Hpre & Hcards & _ & ->).
  cbn [cards_in_hand game_info_of].
  assert (Hempty : size (crop_roi processed (hand_roi self)) = 0).
  { apply crop_roi_empty. left. rewrite (Hshape _ _ Hpre). exact Hshort. }
  unfold detect_cards_in_hand in Hcards.
  destruct (hand_roi self) as [[[x_start y_start] x_end] y_end].
  rewrite Hempty in Hcards. injection Hcards as <-. reflexivity.
Qed.

(** X13: when the screenshot of [_handle_battle_state] fails, the command
    raising or its output not decoding, nothing is sent to the device
    after it. The frame analysed is the 960 by 540 black frame of
    [get_screen], which ends above the hand region of the constructor
    (its top is at 1050), so no card is detected and no action decided.
    OpenCV is taken to keep the height of a frame in preprocessing. *)
Theorem failed_capture_sends_no_swipe (self : BotLoop) (s s' : machine world)
    (r : result BotLoop) :
  (forall f g, _preprocess_image f = Returned g -> shape0 g = shape0 f) ->
  hand_roi (vision_object (objects s)) = (50, 1050, 670, 1230) ->
  (forall data,
     snd (subprocess_run
            (adb_prefix (interface_object (objects s)) ++ screencap_command)
            true false (outside (env s))) = inl data ->
     Image_open_array data = None) ->
  _handle_battle_state self s = (s', r) ->
  latest_screenshot (vision_object (objects s')) = Some (zeros 960 540) /\
  commands (env s') =
    commands (env s) ++
    [adb_prefix (interface_object (objects s)) ++ screencap_command].
Proof.
  intros Hshape Hroi Hfail Hrun.
  assert (Hframe : captured_frame (interface_object (objects s)) (env s)
                   = zeros 960 540).
  { unfold captured_frame.
    destruct (snd (subprocess_run _ true false (outside (env s))))
      as [data|exc] eqn:Hcompleted; [|reflexivity].
    rewrite (Hfail data eq_refl). reflexivity. }
  apply handle_battle_state_run in Hrun. cbn zeta in Hrun.
  rewrite Hframe in Hrun.
  destruct Hrun as (_ & Hvision & _ & Htail).
  split; [rewrite Hvision; reflexivity|].
  destruct Htail as [Hcommands|(info & name & start & position & Hinfo &
                                Hdecide & _)]; [exact Hcommands|].
  exfalso.
  assert (Hcards : cards_in_hand info = []).
  { apply (short_frame_no_cards _ _ _ Hshape) in Hinfo; [exact Hinfo|].
    rewrite Hroi. cbn. lia. }
  unfold decide_action in Hdecide. rewrite Hcards in Hdecide.
  discriminate Hdecide.
Qed.

(** X14: nothing [adb] does makes [BotLoop()] raise, not even its being
    missing: the failure of the connection check is swallowed. The
    constructor runs one command, [adb devices], and leaves the bot not
    running, in state [INITIALIZING], with the interface linked to the
    vision system that holds the templates loaded from the three
    directories. *)
Theorem BotLoop_init_never_raises
    (cards_dir ui_elements_dir enemy_units_dir : directory)
    (e : environment world) :
  exists objects bot,
    snd (BotLoop_init cards_dir ui_elements_dir enemy_units_dir e)
      = Ok (objects, bot) /\
    commands (fst (BotLoop_init cards_dir ui_elements_dir enemy_units_dir e))
      = commands e ++ [["adb"; "devices"]] /\
    vision_object objects
      = VisionSystem_new cards_dir ui_elements_dir enemy_units_dir /\
    adb_prefix (interface_object objects) = ["adb"] /\
    (forall card_name,
       get_card_location (interface_object objects) (vision_object objects)
         card_name
       = get_card_coordinates (vision_object objects) card_name) /\
    running bot = false /\
    current_state bot = INITIALIZING /\
    strategy bot = StrategyEngine_init.
Proof.
  unfold BotLoop_init, ADBEmulatorInterface_init, _check_adb_connection,
    try_except, io_bind, _run_adb_command, ret.
  cbn [adb_prefix app].
  destruct (subprocess_run ["adb"; "devices"] true true (outside e))
    as [w [stdout|exc]]; cbn [fst snd];
    eexists; eexists; (split; [reflexivity|]); repeat split.
Qed.



(** What an iteration sends, and what it keeps: the interface object and
    the strategy. *)
Lemma run_iteration_issued (self : BotLoop) (s s' : machine world)
    (r : result BotLoop) :
  run_iteration self s = (s', r) ->
  interface_object (objects s') = interface_object (objects s) /\
  (forall self', r = Ok self' -> strategy self' = strategy self) /\
  exists issued,
    commands (env s') = commands (env s) ++ issued /\
    Forall (bot_command (interface_object (objects s)) (strategy self))
      issued.
Proof.
  intros Hrun. apply run_iteration_steps in Hrun. cbn zeta in Hrun.
  assert (Hcapture : bot_command (interface_object (objects s))
                       (strategy self)
                       (adb_prefix (interface_object (objects s))
                          ++ screencap_command))
    by (left; reflexivity).
  destruct Hrun as [(e & _ & -> & ->)|
                    [(state & _ & _ & Hobjects & Hcommands & ->)|
                     (_ & s2 & r2 & Hbattle & Hobjects & Hcommands & ->)]].
  - split; [reflexivity|]. split; [intros self' H; discriminate H|].
    eexists. split; [reflexivity|]. constructor; [exact Hcapture|constructor].
  - rewrite Hobjects, Hcommands. split; [reflexivity|].
    split; [intros self' H; injection H as <-; reflexivity|].
    eexists. split; [reflexivity|]. constructor; [exact Hcapture|constructor].
  - apply handle_battle_state_run in Hbattle.
    cbn [env objects vision_object interface_object commands
         strategy set_current_state running current_state] in Hbattle.
    destruct Hbattle as (Hinterface & _ & Hself & Htail).
    rewrite Hobjects, Hcommands. split; [exact Hinterface|].
    split; [intros self' H; exact (proj1 (proj2 (Hself self' H)))|].
    destruct Htail as [->|(info & name & start & position & _ & Hdecide &
                           _ & ->)].
    + eexists. split; [rewrite <- app_assoc; reflexivity|].
      constructor; [exact Hcapture|]. constructor; [exact Hcapture|constructor].
    + eexists. split; [rewrite <- app_assoc; reflexivity|].
      constructor; [exact Hcapture|]. constructor; [exact Hcapture|].
      constructor; [|constructor].
      right. exists start, position. split; [|reflexivity].
      exact (decide_action_position _ _ _ _ Hdecide).
Qed.

(** X17: all the bot ever sends. However long the loop of [run] goes on
    and however it ends, every command handed to [subprocess.run] is the
    screenshot command or a swipe that ends on one of the four placement
    positions of the strategy, each behind the prefix of the interface.
    The bot never taps: it presses no button on the menu or after a
    game. *)
Theorem run_sends_screenshots_and_swipes (fuel : nat) (self : BotLoop)
    (s s' : machine world) (r : result (option BotLoop)) :
  run fuel self s = (s', r) ->
  exists issued,
    commands (env s') = commands (env s) ++ issued /\
    Forall (bot_command (interface_object (objects s)) (strategy self))
      issued.
Proof.
  revert self s. induction fuel as [|fuel IH]; intros self s; cbn [run].
  - destruct (running self); intros H; injection H as <- _;
      exists []; (split; [rewrite app_nil_r; reflexivity|constructor]).
  - destruct (running self).
    + intros Hrun. apply io_bind_run in Hrun.
      destruct Hrun as [(s1 & self1 & Hiteration & Hrun)|(e & Hiteration & _)].
      * apply run_iteration_issued in Hiteration.
        destruct Hiteration as (Hinterface & Hstrategy & issued1 & H1 & Hall1).
        apply IH in Hrun. destruct Hrun as (issued2 & H2 & Hall2).
        rewrite Hinterface, (Hstrategy self1 eq_refl) in Hall2.
        exists (issued1 ++ issued2). split.
        -- rewrite H2, H1, app_assoc. reflexivity.
        -- apply Forall_app. split; assumption.
      * apply run_iteration_issued in Hiteration.
        destruct Hiteration as (_ & _ & issued & H & Hall).
        exists issued. split; assumption.
    + intros H. injection H as <- _.
      exists []. split; [rewrite app_nil_r; reflexivity|constructor].
Qed.

End Vision.

(** ** The regions of interest *)

(** C7: the enemy-field region has the left, top and right sides of the
    battlefield region, and its bottom is the battlefield's top plus half
    the battlefield's height (integer division) plus 50 pixels: the upper
    half of the battlefield, extended 50 pixels downward. *)
Theorem enemy_field_roi_upper_half (cards ui_elements enemy_units : dict gray) :
  let self := __init__ cards ui_elements enemy_units in
  let battlefield := battlefield_roi self in
  let enemy_field := enemy_field_roi self in
  roi_0 enemy_field = roi_0 battlefield /\
  roi_1 enemy_field = roi_1 battlefield /\
  roi_2 enemy_field = roi_2 battlefield /\
  roi_3 enemy_field =
    roi_1 battlefield + (roi_3 battlefield - roi_1 battlefield) / 2 + 50 /\
  battlefield = (0, 150, 720, 1000) /\
  enemy_field = (0, 150, 720, 625).
Proof.
  simpl. repeat split.
Qed.

(** ** The reference implementation of the OpenCV operations *)

Lemma sum_upto_S (n : nat) (f : nat -> Z) :
  RefCV.sum_upto (S n) f = (RefCV.sum_upto n f + f n)%Z.
Proof.
  unfold RefCV.sum_upto. rewrite seq_S, fold_right_app. simpl.
  generalize (seq 0 n) as l.
  induction l as [|k l IH]; simpl; [|rewrite IH]; lia.
Qed.

Lemma sum_upto_ext (n : nat) (f g : nat -> Z) :
  (forall k, k < n -> f k = g k) ->
  RefCV.sum_upto n f = RefCV.sum_upto n g.
Proof.
  induction n as [|n IH]; intros H; [reflexivity|].
  rewrite !sum_upto_S, IH, (H n) by auto with arith. reflexivity.
Qed.

Lemma sum_upto_zero (n : nat) : RefCV.sum_upto n (fun _ => 0%Z) = 0%Z.
Proof.
  induction n as [|n IH]; [reflexivity|]. rewrite sum_upto_S, IH. reflexivity.
Qed.

Lemma window_sum_ext (h w : nat) (f g : nat -> nat -> Z) :
  (forall i j, i < h -> j < w -> f i j = g i j) ->
  RefCV.window_sum h w f = RefCV.window_sum h w g.
Proof.
  intros H. unfold RefCV.window_sum. apply sum_upto_ext. intros k Hk.
  assert (Hw : w <> 0) by (intros E; subst w; lia).
  apply H.
  - apply Nat.Div0.div_lt_upper_bound. lia.
  - apply Nat.mod_upper_bound. exact Hw.
Qed.

Lemma window_sum_zero (h w : nat) :
  RefCV.window_sum h w (fun _ _ => 0%Z) = 0%Z.
Proof. unfold RefCV.window_sum. apply sum_upto_zero. Qed.

Lemma covariance_ext (h w : nat) (f f' g g' : nat -> nat -> Z) :
  (forall i j, i < h -> j < w -> f i j = f' i j) ->
  (forall i j, i < h -> j < w -> g i j = g' i j) ->
  RefCV.covariance h w f g = RefCV.covariance h w f' g'.
Proof.
  intros Hf Hg. unfold RefCV.covariance.
  rewrite (window_sum_ext h w f f' Hf), (window_sum_ext h w g g' Hg).
  rewrite (window_sum_ext h w (fun i j => (f i j * g i j)%Z)
             (fun i j => (f' i j * g' i j)%Z)).
  - reflexivity.
  - intros i j Hi Hj. rewrite (Hf i j Hi Hj), (Hg i j Hi Hj). reflexivity.
Qed.

Lemma covariance_zero_r (h w : nat) (f : nat -> nat -> Z) :
  RefCV.covariance h w f (fun _ _ => 0%Z) = 0%Z.
Proof.
  unfold RefCV.covariance.
  rewrite (window_sum_ext h w (fun i j => (f i j * 0)%Z) (fun _ _ => 0%Z))
    by (intros; lia).
  rewrite window_sum_zero. lia.
Qed.

(** The sum of squared distances to any [c] is not negative... *)
Lemma sum_upto_deviation_nonneg (n : nat) (f : nat -> Z) (c : Z) :
  (0 <= RefCV.sum_upto n (fun k => f k * f k)
        - 2 * c * RefCV.sum_upto n f + Z.of_nat n * (c * c))%Z.
Proof.
  induction n as [|n IH]; [unfold RefCV.sum_upto; simpl; lia|].
  rewrite !sum_upto_S. pose proof (Z.square_nonneg (f n - c)). nia.
Qed.

(** ... hence neither is [n] times the variance. *)
Lemma sum_upto_variance_nonneg (n : nat) (f : nat -> Z) :
  (0 <= Z.of_nat n * RefCV.sum_upto n (fun k => f k * f k)
        - RefCV.sum_upto n f * RefCV.sum_upto n f)%Z.
Proof.
  induction n as [|n IH]; [unfold RefCV.sum_upto; simpl; lia|].
  rewrite !sum_upto_S.
  pose proof (sum_upto_deviation_nonneg n f (f n)). nia.
Qed.

Lemma variance_nonneg (h w : nat) (f : nat -> nat -> Z) :
  (0 <= RefCV.covariance h w f f)%Z.
Proof.
  unfold RefCV.covariance, RefCV.window_sum.
  apply (sum_upto_variance_nonneg (h * w) (fun k => f (k / w) (k mod w))).
Qed.

(** No score of the reference matcher exceeds 1. *)
Lemma ccoeff_normed_le_1 (image templ : gray) (x y : nat) :
  (RefCV.ccoeff_normed image templ x y <= 1)%Q.
Proof.
  unfold RefCV.ccoeff_normed.
  set (num := RefCV.covariance _ _ (fun i j => item templ i j)
                (fun i j => item image (y + i) (x + j))).
  set (var_T := RefCV.covariance _ _ (fun i j => item templ i j) _).
  set (var_I := RefCV.covariance _ _ (fun i j => item image (y + i) (x + j)) _).
  destruct (var_T =? 0)%Z; [apply Qle_refl|].
  destruct (num * num <? var_T * var_I)%Z eqn:E.
  - apply Z.ltb_lt in E.
    assert (Hd : (0 < var_T * var_I)%Z) by nia.
    assert (Hpow : (2 ^ 48 = 16777216 * 16777216)%Z) by reflexivity.
    rewrite Hpow.
    set (q := (num * num * (16777216 * 16777216) / (var_T * var_I))%Z).
    assert (Hq : (q < 16777216 * 16777216)%Z).
    { apply Z.div_lt_upper_bound; [exact Hd|]. nia. }
    assert (Hq0 : (0 <= q)%Z) by (apply Z.div_pos; [nia|exact Hd]).
    assert (Hs : (Z.sqrt q < 16777216)%Z).
    { apply Z.sqrt_lt_square; [exact Hq0|lia|exact Hq]. }
    pose proof (Z.sqrt_nonneg q).
    unfold Qle. simpl Qnum. simpl Qden.
    destruct (0 <=? num)%Z; lia.
  - destruct (64 * (num * num) <? 81 * (var_T * var_I))%Z.
    + destruct (0 <? num)%Z; unfold Qle; simpl; lia.
    + unfold Qle; simpl; lia.
Qed.

(** An exact copy of the template scores 1 in the reference matcher. *)
Lemma ccoeff_normed_exact_copy (image templ : gray) (p : point) :
  exact_copy image templ p ->
  RefCV.ccoeff_normed image templ (fst p) (snd p) = 1%Q.
Proof.
  intros (_ & _ & Hcopy). unfold RefCV.ccoeff_normed.
  rewrite (covariance_ext _ _ (fun i j => item templ i j)
             (fun i j => item templ i j)
             (fun i j => item image (snd p + i) (fst p + j))
             (fun i j => item templ i j)) by auto.
  rewrite (covariance_ext _ _
             (fun i j => item image (snd p + i) (fst p + j))
             (fun i j => item templ i j)
             (fun i j => item image (snd p + i) (fst p + j))
             (fun i j => item templ i j)) by auto.
  pose proof (variance_nonneg (shape0 templ) (shape1 templ)
                (fun i j => item templ i j)) as Hvar.
  set (var_T := RefCV.covariance _ _ _ _) in *.
  destruct (var_T =? 0)%Z eqn:E0; [reflexivity|].
  apply Z.eqb_neq in E0.
  replace (var_T * var_T <? var_T * var_T)%Z with false
    by (symmetry; apply Z.ltb_irrefl).
  replace (64 * (var_T * var_T) <? 81 * (var_T * var_T))%Z with true
    by (symmetry; apply Z.ltb_lt; nia).
  replace (0 <? var_T)%Z with true by (symmetry; apply Z.ltb_lt; lia).
  reflexivity.
Qed.

(** A window of zeros scores 0 against a template that is not flat. *)
Lemma ccoeff_normed_zero_window (image templ : gray) (x y : nat) :
  (forall i j, i < shape0 templ -> j < shape1 templ ->
     item image (y + i) (x + j) = 0%Z) ->
  RefCV.covariance (shape0 templ) (shape1 templ)
    (fun i j => item templ i j) (fun i j => item templ i j) <> 0%Z ->
  RefCV.ccoeff_normed image templ x y = 0%Q.
Proof.
  intros Hzero Hvar. unfold RefCV.ccoeff_normed.
  rewrite (covariance_ext _ _ (fun i j => item templ i j)
             (fun i j => item templ i j)
             (fun i j => item image (y + i) (x + j))
             (fun _ _ => 0%Z)) by auto.
  rewrite (covariance_ext _ _
             (fun i j => item image (y + i) (x + j)) (fun _ _ => 0%Z)
             (fun i j => item image (y + i) (x + j)) (fun _ _ => 0%Z)) by auto.
  rewrite !covariance_zero_r.
  apply Z.eqb_neq in Hvar. rewrite Hvar.
  rewrite !Z.mul_0_r. reflexivity.
Qed.

(** The reference matcher returns whenever the template is not empty and
    fits, and its score map is one of a normalized cross-correlation. *)
Lemma RefCV_matchTemplate_returns (image templ : gray) :
  fits templ image -> size templ <> 0 ->
  RefCV.matchTemplate_CCOEFF_NORMED image templ =
    Returned (RefCV.score_map image templ).
Proof.
  intros [H0 H1] Hsize. unfold RefCV.matchTemplate_CCOEFF_NORMED.
  replace (size templ =? 0) with false by (symmetry; apply Nat.eqb_neq; exact Hsize).
  replace (shape0 image <? shape0 templ) with false
    by (symmetry; apply Nat.ltb_ge; exact H0).
  replace (shape1 image <? shape1 templ) with false
    by (symmetry; apply Nat.ltb_ge; exact H1).
  reflexivity.
Qed.

Lemma RefCV_correlation_map (image templ : gray) :
  correlation_map image templ (RefCV.score_map image templ).
Proof.
  unfold correlation_map. split; [reflexivity|]. split; [reflexivity|]. split.
  - intros q _. apply ccoeff_normed_le_1.
  - intros q Hq. unfold score_at. simpl.
    rewrite (ccoeff_normed_exact_copy image templ q Hq). reflexivity.
Qed.

(** Preprocessing a black frame gives a black image of the same shape. *)
Lemma RefCV_preprocess_black (image : frame) :
  size image <> 0 ->
  (forall i j, item image i j = (0, 0, 0)%Z) ->
  exists processed,
    _preprocess_image RefCV.cvtColor_BGR2GRAY RefCV.GaussianBlur_5x5 image
      = Returned processed /\
    shape0 processed = shape0 image /\
    shape1 processed = shape1 image /\
    forall i j, item processed i j = 0%Z.
Proof.
  intros Hsize Hblack.
  exists (RefCV.blurred_image (RefCV.gray_image image)).
  unfold _preprocess_image, RefCV.cvtColor_BGR2GRAY, RefCV.GaussianBlur_5x5.
  apply Nat.eqb_neq in Hsize. rewrite Hsize. cbn [bind].
  change (size (RefCV.gray_image image)) with (size image).
  rewrite Hsize. cbn [bind].
  split; [reflexivity|]. split; [reflexivity|]. split; [reflexivity|].
  intros i j. cbn [item RefCV.blurred_image]. unfold RefCV.blurred_item.
  rewrite (window_sum_ext 5 5 _ (fun _ _ => 0%Z)).
  - rewrite window_sum_zero. reflexivity.
  - intros a b _ _. cbn [item RefCV.gray_image].
    rewrite Hblack. change (RefCV.luma (0, 0, 0)%Z) with 0%Z. lia.
Qed.

Lemma find_template_searched_RefCV (S T : gray) (threshold : Q) :
  fits T S -> size T <> 0 ->
  exists p,
    best_match (RefCV.score_map S T) p /\
    _find_template RefCV.matchTemplate_CCOEFF_NORMED (Some S) (Some T) threshold
    = Returned (if Qle_bool threshold (RefCV.ccoeff_normed S T (fst p) (snd p))
                then Some (center_of T p) else None).
Proof.
  intros Hfits Hsize.
  assert (Hres : size (RefCV.score_map S T) <> 0).
  { unfold size. simpl. nia. }
  destruct (minMaxLoc_best_match _ Hres) as (mn & lmin & p & _ & Hbest).
  exists p. split; [exact Hbest|].
  exact (find_template_searched RefCV.matchTemplate_CCOEFF_NORMED S T threshold
           _ p Hfits (RefCV_matchTemplate_returns S T Hfits Hsize) Hbest).
Qed.

(** In a black image the reference matcher finds no template that is not
    flat, whatever the positive threshold. *)
Lemma find_template_in_black_image (S T : gray) (threshold : Q) :
  fits T S -> size T <> 0 ->
  (forall i j, item S i j = 0%Z) ->
  RefCV.covariance (shape0 T) (shape1 T)
    (fun i j => item T i j) (fun i j => item T i j) <> 0%Z ->
  (0 < threshold)%Q ->
  _find_template RefCV.matchTemplate_CCOEFF_NORMED (Some S) (Some T) threshold
  = Returned None.
Proof.
  intros Hfits Hsize Hblack Hvar Hthr.
  destruct (find_template_searched_RefCV S T threshold Hfits Hsize)
    as (p & _ & Hfind).
  rewrite Hfind.
  rewrite (ccoeff_normed_zero_window S T (fst p) (snd p)) by auto.
  destruct (Qle_bool threshold 0) eqn:E; [|reflexivity].
  apply Qle_bool_iff in E. exfalso. exact (Qlt_not_le _ _ Hthr E).
Qed.

(** * Concrete runs *)

(** Title-casing of card names. *)
Example title_of_card_names :
  title (replace "_" " " "fireball") = "Fireball" /\
  title (replace "_" " " "mini_pekka") = "Mini Pekka" /\
  title (replace "_" " " "GIANT skeleton") = "Giant Skeleton".
Proof. repeat split. Qed.

(** C5 on a template two rows high and an image of one row: the matcher
    itself would raise, the guard of [_find_template] answers "not found"
    first. *)
Lemma find_template_rejects_oversized_run :
  RefCV.matchTemplate_CCOEFF_NORMED stripe_image corner_template
    = Raised cv2_error /\
  _find_template RefCV.matchTemplate_CCOEFF_NORMED
    (Some stripe_image) (Some corner_template) 0.8 = Returned None.
Proof.
  split; [reflexivity|].
  apply (find_template_rejects_absent_or_oversized
           RefCV.matchTemplate_CCOEFF_NORMED).
  right. right. exists stripe_image, corner_template.
  split; [reflexivity|]. split; [reflexivity|]. left. simpl. lia.
Defined.

Lemma exact_copy_in_search_image : exact_copy search_image corner_template (1, 0).
Proof.
  unfold exact_copy. simpl. split; [lia|]. split; [lia|].
  intros i j Hi Hj.
  destruct i as [|[|i]]; [| |lia]; (destruct j as [|[|j]]; [| |lia]);
    reflexivity.
Qed.

(** C1 on [search_image]: [corner_template] sits in it with its top-left
    corner at column 1 of row 0; at threshold 0.9 its centre (2, 1) is
    returned. *)
Lemma find_template_returns_best_center_run :
  _find_template RefCV.matchTemplate_CCOEFF_NORMED
    (Some search_image) (Some corner_template) 0.9 = Returned (Some (2, 1)).
Proof.
  assert (Hfits : fits corner_template search_image) by (split; simpl; lia).
  assert (Hsize : size corner_template <> 0) by (vm_compute; lia).
  destruct (find_template_returns_best_center
              RefCV.matchTemplate_CCOEFF_NORMED
              search_image corner_template 0.9
              (RefCV.score_map search_image corner_template) Hfits
              (RefCV_matchTemplate_returns _ _ Hfits Hsize))
    as (p & _ & _ & _ & Hcopy).
  - vm_compute. lia.
  - destruct (Hcopy (RefCV_correlation_map _ _) (1, 0)
                exact_copy_in_search_image) as [_ Hfind].
    + unfold Qle. simpl. lia.
    + intros [x y] [Hy Hx] Hbefore. simpl in Hy, Hx.
      unfold row_major_before in Hbefore. simpl in Hbefore.
      assert (y = 0) by lia. assert (x = 0) by lia. subst.
      vm_compute. reflexivity.
    + exact Hfind.
Defined.

(** C1 as the specification states it fails on an image that holds the
    template twice: [stripe_image] has exact copies of [stripe_template]
    at columns 0 and 2, so both (1, 0) and (3, 0) would have to be
    returned from one call. With the reference matcher the call returns
    (1, 0), the centre of the first copy in scan order, and not the
    centre of the copy at column 2; and no matcher at all makes the
    exact-copy statement true of every image. *)
Lemma find_template_second_copy_not_returned :
  exact_copy stripe_image stripe_template (2, 0) /\
  (0.8 <= 1)%Q /\
  _find_template RefCV.matchTemplate_CCOEFF_NORMED
    (Some stripe_image) (Some stripe_template) 0.8 = Returned (Some (1, 0)) /\
  (1, 0) <> (2 + shape1 stripe_template / 2, 0 + shape0 stripe_template / 2) /\
  (forall matcher,
     ~ (forall S T threshold q,
          exact_copy S T q -> (threshold <= 1)%Q ->
          _find_template matcher (Some S) (Some T) threshold =
            Returned (Some (fst q + shape1 T / 2, snd q + shape0 T / 2)))).
Proof.
  assert (Hcopy : forall x, x = 0 \/ x = 2 ->
            exact_copy stripe_image stripe_template (x, 0)).
  { intros x Hx. unfold exact_copy. simpl. split; [lia|]. split; [lia|].
    intros i j Hi Hj. assert (i = 0) by lia. subst i.
    destruct Hx; subst x; (destruct j as [|[|j]]; [| |lia]); reflexivity. }
  assert (Hthr : (0.8 <= 1)%Q) by (unfold Qle; simpl; lia).
  split; [apply Hcopy; auto|]. split; [exact Hthr|].
  split; [vm_compute; reflexivity|]. split; [simpl; discriminate|].
  intros matcher Hall.
  pose proof (Hall stripe_image stripe_template 0.8%Q (0, 0)
                (Hcopy 0 (or_introl eq_refl)) Hthr) as Hfirst.
  pose proof (Hall stripe_image stripe_template 0.8%Q (2, 0)
                (Hcopy 2 (or_intror eq_refl)) Hthr) as Hsecond.
  rewrite Hfirst in Hsecond. simpl in Hsecond. discriminate.
Qed.

(** C2 on [two_patch_frame]: both the battle indicator and the play
    button are found; the frame is classified in battle. *)
Lemma classify_first_match_wins_run :
  snd (get_current_game_state
         RefCV.cvtColor_BGR2GRAY RefCV.GaussianBlur_5x5
         RefCV.matchTemplate_CCOEFF_NORMED sample_vision two_patch_frame)
  = Returned IN_BATTLE.
Proof.
  apply (proj2 (classify_first_match_wins
                  RefCV.cvtColor_BGR2GRAY RefCV.GaussianBlur_5x5
                  RefCV.matchTemplate_CCOEFF_NORMED
                  sample_vision two_patch_frame
                  (RefCV.blurred_image (RefCV.gray_image two_patch_frame))
                  eq_refl)).
  - exists (of_rows 0%Z [ [46; 33]; [33; 23] ]%Z), (1, 1).
    split; [reflexivity|]. vm_compute. reflexivity.
  - exists (of_rows 0%Z [ [70; 90]; [87; 109] ]%Z), (5, 4).
    split; [reflexivity|]. vm_compute. reflexivity.
Defined.

(** C3 on the black 720 by 1280 frame: it matches none of the UI
    templates and is classified in battle. *)
Lemma classify_fallback_in_battle_run :
  snd (get_current_game_state
         RefCV.cvtColor_BGR2GRAY RefCV.GaussianBlur_5x5
         RefCV.matchTemplate_CCOEFF_NORMED sample_vision black_frame)
  = Returned IN_BATTLE.
Proof.
  destruct (RefCV_preprocess_black black_frame)
    as (processed & Hpre & H0 & H1 & Hblack).
  - unfold size, black_frame. cbn [shape0 shape1]. lia.
  - reflexivity.
  - apply (classify_fallback_in_battle
             RefCV.cvtColor_BGR2GRAY RefCV.GaussianBlur_5x5
             RefCV.matchTemplate_CCOEFF_NORMED
             sample_vision black_frame processed Hpre).
    assert (Hmiss : forall name T,
              dict_get sample_ui_templates name = Some T ->
              shape0 T = 2 -> shape1 T = 2 ->
              RefCV.covariance 2 2 (fun i j => item T i j)
                (fun i j => item T i j) <> 0%Z ->
              rule_misses RefCV.matchTemplate_CCOEFF_NORMED
                sample_vision processed name).
    { intros name T Hget HT0 HT1 Hvar. right. exists T. split; [exact Hget|].
      apply find_template_in_black_image.
      - unfold fits. rewrite H0, H1, HT0, HT1. simpl. lia.
      - unfold size. rewrite HT0, HT1. lia.
      - exact Hblack.
      - rewrite HT0, HT1. exact Hvar.
      - reflexivity. }
    intros rule [<-|[<-|[<-|[<-|[]]]]];
      (eapply Hmiss; [reflexivity|reflexivity|reflexivity|vm_compute; lia]).
Defined.

(** The analysis of [hand_frame]: one card, no enemy unit. *)
Lemma analyze_hand_frame :
  snd (analyze_battlefield
         RefCV.cvtColor_BGR2GRAY RefCV.GaussianBlur_5x5
         RefCV.matchTemplate_CCOEFF_NORMED sample_vision hand_frame)
  = Returned (game_info_of [knight_in_hand] []).
Proof. vm_compute. reflexivity. Qed.

(** C4 on [hand_frame]: the "Knight" template is found in the hand crop
    at crop-local (2, 2) and reported at (2 + 50, 2 + 1050). *)
Lemma analyze_remaps_roi_matches_run :
  exists name template x y,
    In (name, template) sample_card_templates /\
    _find_template RefCV.matchTemplate_CCOEFF_NORMED
      (Some (crop_roi (RefCV.blurred_image (RefCV.gray_image hand_frame))
               (50, 1050, 670, 1230)))
      (Some template) 0.85 = Returned (Some (x, y)) /\
    knight_in_hand =
      {| card_name := name;
         card_position := (x + 50, y + 1050);
         card_elixir_cost := 3;
         card_type := "unit" |}.
Proof.
  destruct (proj1 (analyze_remaps_roi_matches
                     RefCV.cvtColor_BGR2GRAY RefCV.GaussianBlur_5x5
                     RefCV.matchTemplate_CCOEFF_NORMED
                     sample_vision hand_frame
                     (RefCV.blurred_image (RefCV.gray_image hand_frame))
                     (game_info_of [knight_in_hand] []) eq_refl
                     analyze_hand_frame)
              knight_in_hand) as [Hfound _].
  destruct (Hfound (or_introl eq_refl)) as [_ Hexists].
  exact Hexists.
Defined.

(** X1 on [hand_frame]: the detected names are the dictionary keys with
    "Fireball" left out. *)
Lemma analyze_detections_in_template_order_run :
  subsequence ["Knight"] ["Fireball"; "Knight"] /\
  subsequence (@nil string) [].
Proof.
  exact (analyze_detections_in_template_order
           RefCV.cvtColor_BGR2GRAY RefCV.GaussianBlur_5x5
           RefCV.matchTemplate_CCOEFF_NORMED
           sample_vision hand_frame (game_info_of [knight_in_hand] [])
           analyze_hand_frame).
Defined.

(** C8 on a 1 by 1 frame: both crops are empty and the scene has no card
    and no enemy unit. *)
Lemma analyze_empty_hand_roi_run :
  snd (analyze_battlefield
         RefCV.cvtColor_BGR2GRAY RefCV.GaussianBlur_5x5
         RefCV.matchTemplate_CCOEFF_NORMED sample_vision pixel_frame)
  = Returned (game_info_of [] []).
Proof.
  refine (proj1 (proj2 (proj2 (proj2
    (analyze_empty_hand_roi
       RefCV.cvtColor_BGR2GRAY RefCV.GaussianBlur_5x5
       RefCV.matchTemplate_CCOEFF_NORMED sample_vision pixel_frame
       (RefCV.blurred_image (RefCV.gray_image pixel_frame)) eq_refl _)))) _);
    vm_compute; reflexivity.
Defined.

(** X4 with the knight in hand and an enemy at x = 100: the knight goes to
    the left defensive position (200, 900). *)
Lemma decide_action_placement_run :
  decide_action StrategyEngine_init
    (game_info_of [knight_in_hand] [goblin_on_left])
  = Some (play_card "Knight" (200, 900)) /\
  (100 < 240 -> (200, 900) = left_lane_defensive StrategyEngine_init).
Proof.
  split; [reflexivity|].
  exact (proj1 (decide_action_placement StrategyEngine_init
                  (game_info_of [knight_in_hand] [goblin_on_left])
                  "Knight" (200, 900) eq_refl)).
Defined.

(** X5 on [hand_frame]: the detected knight is known to [card_data], so
    an action is decided, and the card played is a template's key. *)
Lemma decide_action_after_analysis_run :
  (exists properties, dict_get card_data "Knight" = Some properties) /\
  (exists template, In ("Knight", template) sample_card_templates).
Proof.
  exact (proj2 (decide_action_after_analysis
                  RefCV.cvtColor_BGR2GRAY RefCV.GaussianBlur_5x5
                  RefCV.matchTemplate_CCOEFF_NORMED
                  sample_vision StrategyEngine_init hand_frame
                  (game_info_of [knight_in_hand] []) analyze_hand_frame)
               "Knight" (360, 500) eq_refl).
Defined.

(** X6 on [two_knights_listing]: the later knight file provides the
    "Knight" template, the text file and the file that cannot be decoded
    leave no entry. *)
Lemma for_listed_files_last_file_wins_run :
  dict_get (for_listed_files [] two_knights_listing) "Knight"
    = Some (of_rows 0%Z [ [5; 6] ]%Z) /\
  dict_get (for_listed_files [] two_knights_listing) "Notes" = None /\
  dict_get (for_listed_files [] two_knights_listing) "Mini Pekka" = None.
Proof.
  unfold two_knights_listing. split; [|split].
  - apply (proj1 (for_listed_files_last_file_wins _ [] "Knight")
             [ ("knight.png", Some (of_rows 0%Z [ [1; 2] ]%Z));
               ("notes.txt", Some (of_rows 0%Z [ [3; 4] ]%Z)) ]
             "KNIGHT.jpeg" (of_rows 0%Z [ [5; 6] ]%Z)
             [ ("mini_pekka.png", None) ] eq_refl).
    + split; [reflexivity|]. split; [reflexivity|discriminate].
    + intros entry [<-|[]] (_ & _ & Hread). apply Hread. reflexivity.
  - apply (proj2 (for_listed_files_last_file_wins _ [] "Notes")).
    intros entry [<-|[<-|[<-|[<-|[]]]]] (Hext & Hname & Hread);
      cbn [fst snd] in *;
      first [discriminate | apply Hread; reflexivity].
  - apply (proj2 (for_listed_files_last_file_wins _ [] "Mini Pekka")).
    intros entry [<-|[<-|[<-|[<-|[]]]]] (Hext & Hname & Hread);
      cbn [fst snd] in *;
      first [discriminate | apply Hread; reflexivity].
Defined.



(** X9 on [sample_ui_dir]: the directory has a play button image, but not
    under the expected file name, and the frame is taken for a battle. *)
Lemma classify_without_ui_templates_run :
  snd (get_current_game_state
         RefCV.cvtColor_BGR2GRAY RefCV.GaussianBlur_5x5
         RefCV.matchTemplate_CCOEFF_NORMED
         (VisionSystem_new sample_cards_dir sample_ui_dir None)
         two_patch_frame)
  = Returned IN_BATTLE.
Proof.
  apply (classify_without_ui_templates
           RefCV.cvtColor_BGR2GRAY RefCV.GaussianBlur_5x5
           RefCV.matchTemplate_CCOEFF_NORMED
           (VisionSystem_new sample_cards_dir sample_ui_dir None)
           sample_cards_dir sample_ui_dir None two_patch_frame
           (RefCV.blurred_image (RefCV.gray_image two_patch_frame))
           eq_refl).
  - intros listing filename template Hdir. injection Hdir as <-.
    intros [<-|[<-|[<-|[<-|[]]]]]; discriminate.
  - reflexivity.
Defined.

(** X10 on [bitmap_cards_dir]: no template is loaded from it and no
    action is decided on [hand_frame]. *)
Lemma no_card_templates_no_action_run :
  cards_in_hand (game_info_of [] []) = [] /\
  decide_action StrategyEngine_init (game_info_of [] []) = None.
Proof.
  apply (no_card_templates_no_action
           RefCV.cvtColor_BGR2GRAY RefCV.GaussianBlur_5x5
           RefCV.matchTemplate_CCOEFF_NORMED
           (VisionSystem_new bitmap_cards_dir None None)
           StrategyEngine_init bitmap_cards_dir None None hand_frame
           (game_info_of [] []) eq_refl).
  - intros listing filename template Hdir. injection Hdir as <-.
    intros [H|[H|[]]]; [injection H as <- _; reflexivity|discriminate H].
  - vm_compute. reflexivity.
Defined.

(** The reference preprocessing keeps the height of a frame. *)
Lemma RefCV_preprocess_keeps_height (image : frame) (processed : gray) :
  _preprocess_image RefCV.cvtColor_BGR2GRAY RefCV.GaussianBlur_5x5 image
    = Returned processed ->
  shape0 processed = shape0 image.
Proof.
  unfold _preprocess_image, RefCV.cvtColor_BGR2GRAY, RefCV.GaussianBlur_5x5.
  destruct (size image =? 0); [discriminate|]. cbn [bind].
  destruct (size (RefCV.gray_image image) =? 0); [discriminate|]. cbn [bind].
  intros H. injection H as <-. reflexivity.
Qed.

(** X12 on a device whose screenshots decode to [pixel_frame]: without UI
    templates the frame is taken for a battle, a second screenshot is
    made, no card is found on it, and the two screenshots are all that
    is run. *)
Lemma run_iteration_commands_run :
  commands (env (fst (run_iteration
     RefCV.cvtColor_BGR2GRAY RefCV.GaussianBlur_5x5
     RefCV.matchTemplate_CCOEFF_NORMED
     scripted_world scripted_run scripted_decode scripted_sleep scripted_rand
     sample_bot (sample_machine [inl "pixel"; inl "pixel"]))))
  = [ ["adb"; "exec-out"; "screencap"; "-p"];
      ["adb"; "exec-out"; "screencap"; "-p"] ] /\
  exists tail,
    commands (env (fst (run_iteration
       RefCV.cvtColor_BGR2GRAY RefCV.GaussianBlur_5x5
       RefCV.matchTemplate_CCOEFF_NORMED
       scripted_world scripted_run scripted_decode scripted_sleep
       scripted_rand
       sample_bot (sample_machine [inl "pixel"; inl "pixel"]))))
    = ["adb"; "exec-out"; "screencap"; "-p"] :: tail.
Proof.
  split; [vm_compute; reflexivity|].
  destruct (run_iteration_commands
              RefCV.cvtColor_BGR2GRAY RefCV.GaussianBlur_5x5
              RefCV.matchTemplate_CCOEFF_NORMED
              scripted_world scripted_run scripted_decode scripted_sleep
              scripted_rand
              sample_bot (sample_machine [inl "pixel"; inl "pixel"]) _ _
              (surjective_pairing _)) as [tail [Hcommands _]].
  exists tail. exact Hcommands.
Defined.

(** X13 in a world without [adb]: the screenshot of the battle handler
    fails, the black frame is analysed and nothing but the screenshot
    command is run. *)
Lemma failed_capture_sends_no_swipe_run :
  latest_screenshot (vision_object (objects (fst (_handle_battle_state
     RefCV.cvtColor_BGR2GRAY RefCV.GaussianBlur_5x5
     RefCV.matchTemplate_CCOEFF_NORMED
     scripted_world scripted_run scripted_decode scripted_sleep
     scripted_rand
     sample_bot (sample_machine [])))))
  = Some (zeros 960 540) /\
  commands (env (fst (_handle_battle_state
     RefCV.cvtColor_BGR2GRAY RefCV.GaussianBlur_5x5
     RefCV.matchTemplate_CCOEFF_NORMED
     scripted_world scripted_run scripted_decode scripted_sleep
     scripted_rand
     sample_bot (sample_machine []))))
  = [ ["adb"; "exec-out"; "screencap"; "-p"] ].
Proof.
  eapply (failed_capture_sends_no_swipe
            RefCV.cvtColor_BGR2GRAY RefCV.GaussianBlur_5x5
            RefCV.matchTemplate_CCOEFF_NORMED
            scripted_world scripted_run scripted_decode scripted_sleep
            scripted_rand sample_bot (sample_machine [])).
  - exact RefCV_preprocess_keeps_height.
  - reflexivity.
  - intros data H. vm_compute in H. discriminate H.
  - apply surjective_pairing.
Defined.




(** X17 in a world without [adb], for two iterations: four failed
    screenshots are all that is run. *)
Lemma run_sends_screenshots_and_swipes_run :
  commands (env (fst (run
     RefCV.cvtColor_BGR2GRAY RefCV.GaussianBlur_5x5
     RefCV.matchTemplate_CCOEFF_NORMED
     scripted_world scripted_run scripted_decode scripted_sleep scripted_rand
     2 sample_bot (sample_machine []))))
  = [ ["adb"; "exec-out"; "screencap"; "-p"];
      ["adb"; "exec-out"; "screencap"; "-p"];
      ["adb"; "exec-out"; "screencap"; "-p"];
      ["adb"; "exec-out"; "screencap"; "-p"] ] /\
  exists issued,
    commands (env (fst (run
       RefCV.cvtColor_BGR2GRAY RefCV.GaussianBlur_5x5
       RefCV.matchTemplate_CCOEFF_NORMED
       scripted_world scripted_run scripted_decode scripted_sleep
       scripted_rand
       2 sample_bot (sample_machine []))))
    = issued /\
    Forall (bot_command (interface_object sample_store) StrategyEngine_init)
      issued.
Proof.
  split; [vm_compute; reflexivity|].
  exact (run_sends_screenshots_and_swipes
           RefCV.cvtColor_BGR2GRAY RefCV.GaussianBlur_5x5
           RefCV.matchTemplate_CCOEFF_NORMED
           scripted_world scripted_run scripted_decode scripted_sleep
           scripted_rand
           2 sample_bot (sample_machine []) _ _ (surjective_pairing _)).
Defined.

(** The swipe that drags a card from (52, 1052) to (360, 500). *)
Example swipe_command_digits :
  swipe_command (52, 1052) (360, 500)
  = ["shell"; "input"; "swipe"; "52"; "1052"; "360"; "500"; "500"].
Proof. reflexivity. Qed.

(** Each of the three phases is returned on [two_patch_frame], depending
    on the UI templates in the store. *)
Example classify_reaches_each_phase :
  let classify := fun ui_elements =>
    snd (get_current_game_state
           RefCV.cvtColor_BGR2GRAY RefCV.GaussianBlur_5x5
           RefCV.matchTemplate_CCOEFF_NORMED
           (__init__ [] ui_elements []) two_patch_frame) in
  let patch := of_rows 0%Z [ [46; 33]; [33; 23] ]%Z in
  classify [ ("Battle Indicator", patch) ] = Returned IN_BATTLE /\
  classify [ ("Play Button", patch) ] = Returned ON_MENU /\
  classify [ ("OK Button", patch) ] = Returned POST_GAME /\
  classify [ ("Home Button", patch) ] = Returned ON_MENU /\
  classify [ ("Settings Icon", patch) ] = Returned IN_BATTLE /\
  classify [] = Returned IN_BATTLE.
Proof. vm_compute. repeat split. Qed.
